(** * casbin-postgres-adapter: the rule codec and the storage adapter

    A shallow embedding of [adapter.go].  Go strings are [string]s (byte
    strings), slices are lists, [int] is a 64-bit two's complement integer
    carried by [Z], a run-time panic is a value of [result], and the
    adapter's methods are computations over the adapter and the database
    server it talks to. *)

From Stdlib Require Import ZArith String Ascii List Bool Lia.
From stdpp Require Import base option list strings gmap.

Import ListNotations.
Local Open Scope string_scope.
Local Open Scope Z_scope.

(** ** Go primitives *)

Module Go.

(** Run-time panics the adapter can raise. *)
Inductive panic : Type :=
| IndexOutOfRange
| NilDereference
| PanicErr (msg : string).

Inductive result (A : Type) : Type :=
| Ok (a : A)
| Panic (p : panic).
Arguments Ok {A} a.
Arguments Panic {A} p.

#[global] Instance result_ret : MRet result := fun A a => Ok a.
#[global] Instance result_bind : MBind result := fun A B k r =>
  match r with
  | Ok a => k a
  | Panic p => Panic p
  end.

(** The value of Go's [error] interface: [nil] or an error. *)
Inductive error : Type :=
| err_nil
| err_new (msg : string).

(** [err == nil]. *)
Definition is_nil (e : error) : bool :=
  match e with err_nil => true | err_new _ => false end.

(** [int] on a 64-bit platform: sums and differences wrap around. *)
Definition int_min : Z := - 2 ^ 63.
Definition int_max : Z := 2 ^ 63 - 1.
Definition is_int (z : Z) : Prop := int_min <= z <= int_max.
Definition wrap (z : Z) : Z := (z + 2 ^ 63) mod 2 ^ 64 - 2 ^ 63.
Definition int_add (x y : Z) : Z := wrap (x + y).
Definition int_sub (x y : Z) : Z := wrap (x - y).

(** [len(s)] of a slice, and [s[i]] with its bounds check. *)
Definition len {A} (s : list A) : Z := Z.of_nat (List.length s).

Definition index {A} (s : list A) (i : Z) : result A :=
  if (0 <=? i) && (i <? len s) then
    match nth_error s (Z.to_nat i) with
    | Some v => Ok v
    | None => Panic IndexOutOfRange
    end
  else Panic IndexOutOfRange.

(** [strings.Split(s, sep)] for a non-empty [sep]: [s] is cut at every
    occurrence of [sep], found from left to right without overlap.
    [skip] counts the bytes of a separator still to be passed over and
    [cur] is the piece read so far. *)
Fixpoint split_go (sep : string) (skip : nat) (cur s : string) : list string :=
  match s with
  | EmptyString => [cur]
  | String c s' =>
      match skip with
      | S k => split_go sep k cur s'
      | O =>
          if String.prefix sep s
          then cur :: split_go sep (Nat.pred (String.length sep)) EmptyString s'
          else split_go sep O (cur ++ String c EmptyString) s'
      end
  end.

Definition Split (s sep : string) : list string := split_go sep O EmptyString s.

(** [s[:1]]: panics on the empty string. *)
Definition first_byte (s : string) : result string :=
  match s with
  | EmptyString => Panic IndexOutOfRange
  | String c _ => Ok (String c EmptyString)
  end.

End Go.

Import Go.

(** ** The stored row (type CasbinRule) *)

Record CasbinRule : Type := mkCasbinRule {
  PType : string;
  V0 : string;
  V1 : string;
  V2 : string;
  V3 : string;
  V4 : string;
  V5 : string
}.

(** The table the struct is mapped to (tag of its [TableName] field). *)
Definition CasbinRule_TableName : string := "x_policy".

Definition x_policy : string := CasbinRule_TableName.

(** [CasbinRule{}]: every column is the empty string. *)
Definition CasbinRule_zero : CasbinRule := mkCasbinRule "" "" "" "" "" "" "".

Definition set_PType (v : string) (l : CasbinRule) : CasbinRule :=
  mkCasbinRule v (V0 l) (V1 l) (V2 l) (V3 l) (V4 l) (V5 l).
Definition set_V0 (v : string) (l : CasbinRule) : CasbinRule :=
  mkCasbinRule (PType l) v (V1 l) (V2 l) (V3 l) (V4 l) (V5 l).
Definition set_V1 (v : string) (l : CasbinRule) : CasbinRule :=
  mkCasbinRule (PType l) (V0 l) v (V2 l) (V3 l) (V4 l) (V5 l).
Definition set_V2 (v : string) (l : CasbinRule) : CasbinRule :=
  mkCasbinRule (PType l) (V0 l) (V1 l) v (V3 l) (V4 l) (V5 l).
Definition set_V3 (v : string) (l : CasbinRule) : CasbinRule :=
  mkCasbinRule (PType l) (V0 l) (V1 l) (V2 l) v (V4 l) (V5 l).
Definition set_V4 (v : string) (l : CasbinRule) : CasbinRule :=
  mkCasbinRule (PType l) (V0 l) (V1 l) (V2 l) (V3 l) v (V5 l).
Definition set_V5 (v : string) (l : CasbinRule) : CasbinRule :=
  mkCasbinRule (PType l) (V0 l) (V1 l) (V2 l) (V3 l) (V4 l) v.

(** The six value columns, in column order, and value column [i]. *)
Definition values (l : CasbinRule) : list string :=
  [V0 l; V1 l; V2 l; V3 l; V4 l; V5 l].

Definition value_col (i : nat) (l : CasbinRule) : string :=
  nth i (values l) "".

(** ** The rule codec *)

(** [savePolicyLine]: each [if len(rule) > i { line.Vi = rule[i] }] reads
    [rule[i]] under its own guard. *)
Definition savePolicyLine (ptype : string) (rule : list string) : CasbinRule :=
  let line := CasbinRule_zero in
  let line := set_PType ptype line in
  let line := if len rule >? 0 then set_V0 (nth 0 rule "") line else line in
  let line := if len rule >? 1 then set_V1 (nth 1 rule "") line else line in
  let line := if len rule >? 2 then set_V2 (nth 2 rule "") line else line in
  let line := if len rule >? 3 then set_V3 (nth 3 rule "") line else line in
  let line := if len rule >? 4 then set_V4 (nth 4 rule "") line else line in
  let line := if len rule >? 5 then set_V5 (nth 5 rule "") line else line in
  line.

(** [s != ""]. *)
Definition nonempty (s : string) : bool := negb (String.eqb s "").

(** The local [lineText] that [loadPolicyLine] builds. *)
Definition lineText (line : CasbinRule) : string :=
  let lineText := PType line in
  let lineText := if nonempty (V0 line) then lineText ++ ", " ++ V0 line else lineText in
  let lineText := if nonempty (V1 line) then lineText ++ ", " ++ V1 line else lineText in
  let lineText := if nonempty (V2 line) then lineText ++ ", " ++ V2 line else lineText in
  let lineText := if nonempty (V3 line) then lineText ++ ", " ++ V3 line else lineText in
  let lineText := if nonempty (V4 line) then lineText ++ ", " ++ V4 line else lineText in
  let lineText := if nonempty (V5 line) then lineText ++ ", " ++ V5 line else lineText in
  lineText.

(** ** The policy model (package model of the policy engine)

    Modelled from the spec: the policy engine's [model.Model], which this
    repository only imports.  It is a two-level mapping from a section name
    to a mapping from a policy type to an assertion, of which the adapter
    reads and extends the rule collection [Policy].  Both levels are kept
    as association lists: the order of the entries stands for the order in
    which [range] visits the map, which Go leaves open. *)

Record Assertion : Type := mkAssertion {
  Policy : list (list string)
}.

Definition AssertionMap : Type := list (string * Assertion).
Definition Model : Type := list (string * AssertionMap).

Fixpoint assoc_get {V} (k : string) (m : list (string * V)) : option V :=
  match m with
  | [] => None
  | (k', v) :: m' => if String.eqb k k' then Some v else assoc_get k m'
  end.

Fixpoint assoc_set {V} (k : string) (v : V) (m : list (string * V)) : list (string * V) :=
  match m with
  | [] => []
  | (k', v') :: m' =>
      if String.eqb k k' then (k', v) :: m' else (k', v') :: assoc_set k v m'
  end.

(** [model[sec]]: a missing section reads as the empty map. *)
Definition section_of (model : Model) (sec : string) : AssertionMap :=
  match assoc_get sec model with
  | Some am => am
  | None => []
  end.

(** The rules the model holds for one policy type of one section. *)
Definition rules_of (model : Model) (sec ptype : string) : list (list string) :=
  match assoc_get ptype (section_of model sec) with
  | Some ast => Policy ast
  | None => []
  end.

(** Modelled from the spec: the policy engine's line loader
    [persist.LoadPolicyLine], which this repository only calls.  It
    re-splits the line at the separator [", "] that [loadPolicyLine] joins
    with, takes the first token as the policy type, finds the section from
    the first byte of the type, and appends the remaining tokens as one
    rule to that type's collection.  The empty line is skipped; a type the
    model does not declare is a nil dereference. *)
Definition LoadPolicyLine (line : string) (model : Model) : result Model :=
  if String.eqb line "" then Ok model
  else
    let tokens := Split line ", " in
    key ← index tokens 0;
    sec ← first_byte key;
    match assoc_get key (section_of model sec) with
    | None => Panic NilDereference
    | Some ast =>
        let ast' := mkAssertion (Policy ast ++ [drop 1 tokens])%list in
        Ok (assoc_set sec (assoc_set key ast' (section_of model sec)) model)
    end.

Definition loadPolicyLine (line : CasbinRule) (model : Model) : result Model :=
  LoadPolicyLine (lineText line) model.

(** ** The database server and its client

    Modelled from the spec: the database client (package pg) and the server
    behind it, which this repository only calls: connect, raw DDL
    execution, querying into a row collection, row insert and row delete.
    A table is the list of its rows in insertion order.  The table
    [createTable] declares bounds its columns, VARCHAR(10) for the type and
    VARCHAR(256) for each value, and the row struct declares no primary
    key; both decide what an insert and a delete do. *)

Record Options : Type := mkOptions {
  User : string;
  Password : string;
  Database : string;
  Addr : string
}.

(** A [*pg.DB] handle. *)
Record DB : Type := mkDB {
  conn_id : nat;
  db_closed : bool
}.

Inductive Request : Type :=
| ReqConnect (opts : Options)
| ReqClose (id : nat)
| ReqExec (sql : string)
| ReqQuery (sql : string)
| ReqInsert (row : CasbinRule).

(** The server: its tables, how many connections were opened and how many
    released, and the requests received so far. *)
Record Server : Type := mkServer {
  tables : gmap string (list CasbinRule);
  opened : nat;
  released : nat;
  log : list Request
}.

Inductive Stmt : Type :=
| CreateTableIfNotExists (t : string)
| DropTable (t : string)
| SelectAll (t : string).

(** The statements the adapter sends, read word by word. *)
Definition parse_sql (sql : string) : option Stmt :=
  match Split sql " " with
  | [a; b; c] =>
      if String.eqb a "DROP" && String.eqb b "table"
      then Some (DropTable c) else None
  | [a; b; c; d] =>
      if String.eqb a "select" && String.eqb b "*" && String.eqb c "from"
      then Some (SelectAll d) else None
  | a :: b :: c :: d :: e :: t :: _ =>
      if String.eqb a "CREATE" && String.eqb b "table" && String.eqb c "IF"
         && String.eqb d "NOT" && String.eqb e "EXISTS"
      then Some (CreateTableIfNotExists t) else None
  | _ => None
  end.

Definition set_tables (t : gmap string (list CasbinRule)) (s : Server) : Server :=
  mkServer t (opened s) (released s) (log s).

Definition logged (r : Request) (s : Server) : Server :=
  mkServer (tables s) (opened s) (released s) (log s ++ [r]).

Definition server_exec (sql : string) (s : Server) : error * Server :=
  match parse_sql sql with
  | Some (CreateTableIfNotExists t) =>
      match tables s !! t with
      | Some _ => (err_nil, s)
      | None => (err_nil, set_tables (<[t := []]> (tables s)) s)
      end
  | Some (DropTable t) =>
      match tables s !! t with
      | Some _ => (err_nil, set_tables (delete t (tables s)) s)
      | None => (err_new "table does not exist", s)
      end
  | _ => (err_new "syntax error", s)
  end.

Definition server_query (sql : string) (s : Server) : list CasbinRule * error :=
  match parse_sql sql with
  | Some (SelectAll t) =>
      match tables s !! t with
      | Some rows => (rows, err_nil)
      | None => ([], err_new "relation does not exist")
      end
  | _ => ([], err_new "syntax error")
  end.

(** The column bounds of the DDL, in characters.  A string is stored as it
    is when it has at most [n] characters; a longer one is refused, unless
    all its characters past the [n]th are spaces, in which case its first
    [n] characters are stored.  Characters are UTF-8 code points: every byte
    that is not a continuation byte starts one. *)
Definition p_type_width : nat := 10.
Definition value_width : nat := 256.

Definition is_continuation (c : ascii) : bool :=
  (128 <=? nat_of_ascii c)%nat && (nat_of_ascii c <? 192)%nat.

Fixpoint char_length (s : string) : nat :=
  match s with
  | EmptyString => 0%nat
  | String c s' => ((if is_continuation c then 0 else 1) + char_length s')%nat
  end.

Fixpoint take_chars (n : nat) (s : string) : string :=
  match s with
  | EmptyString => EmptyString
  | String c s' =>
      if is_continuation c then String c (take_chars n s')
      else match n with
           | O => EmptyString
           | S k => String c (take_chars k s')
           end
  end.

Fixpoint skip_chars (n : nat) (s : string) : string :=
  match s with
  | EmptyString => EmptyString
  | String c s' =>
      if is_continuation c then skip_chars n s'
      else match n with
           | O => s
           | S k => skip_chars k s'
           end
  end.

Fixpoint all_spaces (s : string) : bool :=
  match s with
  | EmptyString => true
  | String c s' => Ascii.eqb c " " && all_spaces s'
  end.

(** What a VARCHAR(n) column stores of a value; [None] when it refuses. *)
Definition varchar (n : nat) (v : string) : option string :=
  if (char_length v <=? n)%nat then Some v
  else if all_spaces (skip_chars n v) then Some (take_chars n v)
  else None.

(** The row the table stores for a given row; [None] when a column
    refuses its value. *)
Definition accepted (row : CasbinRule) : option CasbinRule :=
  p ← varchar p_type_width (PType row);
  v0 ← varchar value_width (V0 row);
  v1 ← varchar value_width (V1 row);
  v2 ← varchar value_width (V2 row);
  v3 ← varchar value_width (V3 row);
  v4 ← varchar value_width (V4 row);
  v5 ← varchar value_width (V5 row);
  Some (mkCasbinRule p v0 v1 v2 v3 v4 v5).

(** Every column of the row is within its bound. *)
Definition fits_columns (row : CasbinRule) : bool :=
  (char_length (PType row) <=? p_type_width)%nat
  && forallb (fun v => (char_length v <=? value_width)%nat) (values row).

Definition too_long_error : error :=
  err_new "value too long for type character varying".

Definition server_insert (row : CasbinRule) (s : Server) : error * Server :=
  match tables s !! CasbinRule_TableName with
  | Some rows =>
      match accepted row with
      | Some row' =>
          (err_nil,
           set_tables (<[CasbinRule_TableName := (rows ++ [row'])%list]> (tables s)) s)
      | None => (too_long_error, s)
      end
  | None => (err_new "relation does not exist", s)
  end.

(** ** The adapter *)

(** [NewAdapter] assigns [addr] and [open] reads it, so the struct is taken
    to carry that field next to the three it declares. *)
Record Adapter : Type := mkAdapter {
  user : string;
  password : string;
  database : string;
  addr : string;
  db : option DB
}.

Definition NewAdapter (user password database addr : string) : Adapter :=
  mkAdapter user password database addr None.

(** The state a method runs in: the receiver and the server. *)
Record World : Type := mkWorld {
  adapter : Adapter;
  server : Server
}.

(** A method: it returns or panics, and leaves a state either way. *)
Definition M (A : Type) : Type := World -> result A * World.

#[global] Instance M_ret : MRet M := fun A a w => (Ok a, w).
#[global] Instance M_bind : MBind M := fun A B k c w =>
  match c w with
  | (Ok a, w') => k a w'
  | (Panic p, w') => (Panic p, w')
  end.

Definition panic_with {A} (p : panic) : M A := fun w => (Panic p, w).
Definition lift {A} (r : result A) : M A := fun w => (r, w).
Definition get_db : M (option DB) := fun w => (Ok (db (adapter w)), w).
Definition set_db (d : option DB) : M unit := fun w =>
  let a := adapter w in
  (Ok tt, mkWorld (mkAdapter (user a) (password a) (database a) (addr a) d) (server w)).
Definition get_options : M Options := fun w =>
  let a := adapter w in
  (Ok (mkOptions (user a) (password a) (database a) (addr a)), w).
Definition on_server {A} (r : Request) (f : Server -> A * Server) : M A := fun w =>
  let '(x, s) := f (logged r (server w)) in (Ok x, mkWorld (adapter w) s).

(** The client's calls.  Each needs a handle: through a nil [*pg.DB] the
    call panics, through a closed one it returns an error. *)
Definition closed_error : error := err_new "pg: database is closed".

Definition pg_Connect (opts : Options) : M DB :=
  on_server (ReqConnect opts) (fun s =>
    (mkDB (opened s) false, mkServer (tables s) (S (opened s)) (released s) (log s))).

Definition pg_Close (h : option DB) : M (option DB) :=
  match h with
  | None => panic_with NilDereference
  | Some d =>
      if db_closed d then mret (Some d)
      else on_server (ReqClose (conn_id d)) (fun s =>
             (Some (mkDB (conn_id d) true),
              mkServer (tables s) (opened s) (S (released s)) (log s)))
  end.

Definition pg_Exec (h : option DB) (sql : string) : M error :=
  match h with
  | None => panic_with NilDereference
  | Some d =>
      if db_closed d then mret closed_error
      else on_server (ReqExec sql) (server_exec sql)
  end.

Definition pg_Query (h : option DB) (sql : string) : M (list CasbinRule * error) :=
  match h with
  | None => panic_with NilDereference
  | Some d =>
      if db_closed d then mret ([], closed_error)
      else on_server (ReqQuery sql) (fun s => (server_query sql s, s))
  end.

Definition pg_Insert (h : option DB) (row : CasbinRule) : M error :=
  match h with
  | None => panic_with NilDereference
  | Some d =>
      if db_closed d then mret closed_error
      else on_server (ReqInsert row) (server_insert row)
  end.

(** [db.Delete] deletes by primary key: the row to delete is the one whose
    key columns equal those of the given struct.  [CasbinRule] has no field
    tagged as key and none named Id, and the DDL declares no key either (the
    comment in [RemovePolicy] says as much), so through a usable handle the
    client refuses the call before it sends anything.  Of the error only
    that it is not nil is used. *)
Definition pk_error : error := err_new "pg: model does not have primary keys".

Definition pg_Delete (h : option DB) (row : CasbinRule) : M error :=
  match h with
  | None => panic_with NilDereference
  | Some d =>
      if db_closed d then mret closed_error
      else mret pk_error
  end.

(** [if err != nil { panic(err) }]. *)
Definition panic_on (err : error) : M unit :=
  match err with
  | err_nil => mret tt
  | err_new msg => panic_with (PanicErr msg)
  end.

Definition createTable_sql : string :=
  "CREATE table IF NOT EXISTS x_policy (p_type VARCHAR(10), v0 VARCHAR(256), v1 VARCHAR(256), v2 VARCHAR(256), v3 VARCHAR(256), v4 VARCHAR(256), v5 VARCHAR(256))".

Definition dropTable_sql : string := "DROP table x_policy".

(** The local [sqlstr] of [LoadPolicy]. *)
Definition LoadPolicy_sqlstr : string := "select * from policy".

Definition createTable : M unit :=
  h ← get_db;
  err ← pg_Exec h createTable_sql;
  panic_on err.

Definition dropTable : M unit :=
  h ← get_db;
  err ← pg_Exec h dropTable_sql;
  panic_on err.

Definition open : M unit :=
  opts ← get_options;
  d ← pg_Connect opts;
  set_db (Some d);;
  createTable.

(** [close] is called by no method: both [defer a.close()] are commented
    out. *)
Definition close : M unit :=
  h ← get_db;
  h' ← pg_Close h;
  set_db h'.

(** [for _, x := range xs { err := body(x); if err != nil { return err } }]:
    the first error ends the loop and is what the method returns. *)
Fixpoint range_err {A} (xs : list A) (body : A -> M error) : M error :=
  match xs with
  | [] => mret err_nil
  | x :: xs' =>
      err ← body x;
      if is_nil err then range_err xs' body else mret err
  end.

(** [for _, line := range lines { loadPolicyLine(line, model) }]. *)
Fixpoint load_lines (lines : list CasbinRule) (model : Model) : result Model :=
  match lines with
  | [] => Ok model
  | line :: lines' =>
      model' ← loadPolicyLine line model;
      load_lines lines' model'
  end.

(** [LoadPolicy] fills the caller's model; the model it leaves is returned
    with the error. *)
Definition LoadPolicy (model : Model) : M (error * Model) :=
  open;;
  h ← get_db;
  '(lines, err) ← pg_Query h LoadPolicy_sqlstr;
  if is_nil err then
    model' ← lift (load_lines lines model);
    mret (err_nil, model')
  else mret (err, model).

(** One of the two loops of [SavePolicy], over [model["p"]] or
    [model["g"]]. *)
Definition save_section (am : AssertionMap) : M error :=
  range_err am (fun '(ptype, ast) =>
    range_err (Policy ast) (fun rule =>
      let line := savePolicyLine ptype rule in
      h ← get_db;
      pg_Insert h line)).

Definition SavePolicy (model : Model) : M error :=
  open;;
  dropTable;;
  createTable;;
  err ← save_section (section_of model "p");
  if is_nil err then
    err ← save_section (section_of model "g");
    if is_nil err then mret err_nil else mret err
  else mret err.

Definition AddPolicy (sec ptype : string) (rule : list string) : M error :=
  let line := savePolicyLine ptype rule in
  h ← get_db;
  err ← pg_Insert h line;
  if is_nil err then mret err else mret err.

Definition RemovePolicy (sec ptype : string) (rule : list string) : M error :=
  let line := savePolicyLine ptype rule in
  h ← get_db;
  err ← pg_Delete h line;
  mret err.

(** The guard [fieldIndex <= i && i < fieldIndex+len(fieldValues)]. *)
Definition in_window (fieldIndex : Z) (fieldValues : list string) (i : Z) : bool :=
  (fieldIndex <=? i) && (i <? int_add fieldIndex (len fieldValues)).

(** The row [RemoveFilteredPolicy] builds before it calls the client. *)
Definition filteredLine (ptype : string) (fieldIndex : Z) (fieldValues : list string)
  : result CasbinRule :=
  let line := CasbinRule_zero in
  let line := set_PType ptype line in
  line ← (if in_window fieldIndex fieldValues 0
          then v ← index fieldValues (int_sub 0 fieldIndex); mret (set_V0 v line)
          else mret line);
  line ← (if in_window fieldIndex fieldValues 1
          then v ← index fieldValues (int_sub 1 fieldIndex); mret (set_V1 v line)
          else mret line);
  line ← (if in_window fieldIndex fieldValues 2
          then v ← index fieldValues (int_sub 2 fieldIndex); mret (set_V2 v line)
          else mret line);
  line ← (if in_window fieldIndex fieldValues 3
          then v ← index fieldValues (int_sub 3 fieldIndex); mret (set_V3 v line)
          else mret line);
  line ← (if in_window fieldIndex fieldValues 4
          then v ← index fieldValues (int_sub 4 fieldIndex); mret (set_V4 v line)
          else mret line);
  line ← (if in_window fieldIndex fieldValues 5
          then v ← index fieldValues (int_sub 5 fieldIndex); mret (set_V5 v line)
          else mret line);
  mret line.

Definition RemoveFilteredPolicy (sec ptype : string) (fieldIndex : Z)
    (fieldValues : list string) : M error :=
  line ← lift (filteredLine ptype fieldIndex fieldValues);
  h ← get_db;
  err ← pg_Delete h line;
  mret err.

(** ** The connection state of the adapter *)

Inductive ConnState : Type := Unopened | Open | Closed.

Definition conn_state (a : Adapter) : ConnState :=
  match db a with
  | None => Unopened
  | Some d => if db_closed d then Closed else Open
  end.

(** Connections opened and not released. *)
Definition live_connections (s : Server) : Z :=
  Z.of_nat (opened s) - Z.of_nat (released s).

(** ** Definitions the statements use *)

(** The encoding as the specification words it: value column [i] holds
    [fields[i]] where the rule has one and the empty string elsewhere. *)
Definition encode_spec (policyType : string) (fields : list string) : CasbinRule :=
  mkCasbinRule policyType
    (default "" (fields !! 0%nat)) (default "" (fields !! 1%nat))
    (default "" (fields !! 2%nat)) (default "" (fields !! 3%nat))
    (default "" (fields !! 4%nat)) (default "" (fields !! 5%nat)).

Definition join_all (pieces : list string) : string :=
  fold_right String.append "" pieces.

(** The line as the specification words it: the type column, then every
    non-empty value column in column order, each after a separator. *)
Definition decode_spec (row : CasbinRule) : string :=
  String.append (PType row)
    (join_all (map (String.append ", ") (List.filter nonempty (values row)))).

(** Whether the separator [", "] occurs in a string. *)
Fixpoint has_sep (s : string) : bool :=
  match s with
  | EmptyString => false
  | String _ s' => String.prefix ", " s || has_sep s'
  end.

(** The model after one more rule is filed under a policy type. *)
Definition with_rule (model : Model) (sec ptype : string) (rule : list string) : Model :=
  match assoc_get ptype (section_of model sec) with
  | Some ast =>
      assoc_set sec
        (assoc_set ptype (mkAssertion (Policy ast ++ [rule])%list) (section_of model sec))
        model
  | None => model
  end.

(** What column [i] of the row built by [RemoveFilteredPolicy] receives. *)
Definition picked (fieldIndex : Z) (fieldValues : list string) (i : Z) : string :=
  if in_window fieldIndex fieldValues i
  then nth (Z.to_nat (i - fieldIndex)) fieldValues ""
  else "".

Definition filteredLine_spec (ptype : string) (fieldIndex : Z) (fieldValues : list string)
  : CasbinRule :=
  mkCasbinRule ptype
    (picked fieldIndex fieldValues 0) (picked fieldIndex fieldValues 1)
    (picked fieldIndex fieldValues 2) (picked fieldIndex fieldValues 3)
    (picked fieldIndex fieldValues 4) (picked fieldIndex fieldValues 5).

(** The table map once [x_policy] is ensured to exist. *)
Definition ensured (t : gmap string (list CasbinRule)) : gmap string (list CasbinRule) :=
  match t !! x_policy with
  | Some _ => t
  | None => <[x_policy := []]> t
  end.

Definition options_of (a : Adapter) : Options :=
  mkOptions (user a) (password a) (database a) (addr a).

(** The receiver once [open] has stored a fresh handle in it. *)
Definition reopened (w : World) : Adapter :=
  let a := adapter w in
  mkAdapter (user a) (password a) (database a) (addr a)
    (Some (mkDB (opened (server w)) false)).

(** The rows [SavePolicy] sends, in the order it sends them. *)
Definition rows_of_section (am : AssertionMap) : list CasbinRule :=
  flat_map (fun '(ptype, ast) => map (savePolicyLine ptype) (Policy ast)) am.

Definition savedRows (model : Model) : list CasbinRule :=
  (rows_of_section (section_of model "p") ++ rows_of_section (section_of model "g"))%list.

(** The world [LoadPolicy] leaves: a fresh handle, the table ensured,
    three requests sent. *)
Definition after_load (w : World) : World :=
  mkWorld (reopened w)
    (mkServer (ensured (tables (server w))) (S (opened (server w)))
       (released (server w))
       (log (server w)
        ++ [ReqConnect (options_of (adapter w)); ReqExec createTable_sql;
            ReqQuery LoadPolicy_sqlstr])).

(** The requests [SavePolicy] sends before its inserts. *)
Definition save_prologue (a : Adapter) : list Request :=
  [ReqConnect (options_of a); ReqExec createTable_sql;
   ReqExec dropTable_sql; ReqExec createTable_sql].

(** The server once [SavePolicy] has opened, dropped and recreated: the
    table is there and empty. *)
Definition recreated_server (w : World) : Server :=
  mkServer (<[x_policy := []]> (tables (server w)))
    (S (opened (server w))) (released (server w))
    (log (server w) ++ save_prologue (adapter w)).

(** One insert as the server sees it, and inserts one after the other up
    to the first that fails. *)
Definition insert_row (row : CasbinRule) (s : Server) : error * Server :=
  server_insert row (logged (ReqInsert row) s).

Fixpoint insert_rows (rows : list CasbinRule) (s : Server) : error * Server :=
  match rows with
  | [] => (err_nil, s)
  | row :: rows' =>
      let '(e, s') := insert_row row s in
      if is_nil e then insert_rows rows' s' else (e, s')
  end.

(** The world [SavePolicy] leaves. *)
Definition after_save (model : Model) (w : World) : World :=
  mkWorld (reopened w) (snd (insert_rows (savedRows model) (recreated_server w))).

(** The method left the receiver, and the count of opened and of released
    connections, as they were. *)
Definition connection_untouched (w w' : World) : Prop :=
  adapter w' = adapter w
  /\ conn_state (adapter w') = conn_state (adapter w)
  /\ opened (server w') = opened (server w)
  /\ released (server w') = released (server w).

(** The method stored a fresh open handle, ensured the table, and released
    nothing: one more connection is live. *)
Definition connection_reopened (w w' : World) : Prop :=
  conn_state (adapter w') = Open
  /\ db (adapter w') = Some (mkDB (opened (server w)) false)
  /\ opened (server w') = S (opened (server w))
  /\ released (server w') = released (server w)
  /\ live_connections (server w') = live_connections (server w) + 1
  /\ is_Some (tables (server w') !! x_policy).

(** ** Examples *)

Definition new_server : Server := mkServer ∅ 0 0 [].

Definition new_world : World :=
  mkWorld (NewAdapter "casbin" "secret" "casbin" "localhost:5432") new_server.

Definition example_model : Model :=
  [("p", [("p", mkAssertion [["alice"; "data1"; "read"]; ["bob"; "data2"; "write"]])]);
   ("g", [("g", mkAssertion [["alice"; "admin"]])])].

(** A model that declares the same types and holds no rule. *)
Definition fresh_model : Model :=
  [("p", [("p", mkAssertion [])]); ("g", [("g", mkAssertion [])])].

Definition example_row : CasbinRule :=
  mkCasbinRule "p" "alice" "data1" "read" "" "" "".

(** An adapter with an open handle on a server whose table holds
    [example_row] only. *)
Definition example_world : World :=
  mkWorld
    (mkAdapter "casbin" "secret" "casbin" "localhost:5432" (Some (mkDB 0 false)))
    (mkServer {[ x_policy := [example_row] ]} 1 0 []).

Arguments server_exec : simpl never.
Arguments server_query : simpl never.

Ltac run_monad :=
  unfold mbind, M_bind, mret, M_ret, get_db, set_db, get_options, lift,
    panic_with, on_server, set_tables, logged;
  cbn [adapter server db db_closed conn_id tables opened released log
       user password database addr fst snd].

(** ** Definitions for the further properties *)


(** Rules with their policy types, and the rows that encode them. *)
Definition encoded (rules : list (string * list string)) : list CasbinRule :=
  map (fun '(ptype, rule) => savePolicyLine ptype rule) rules.

(** Whether a policy type belongs to a section: the section is the first
    byte of the type. *)
Definition in_section (sec ptype : string) : bool :=
  match first_byte ptype with
  | Ok s => String.eqb s sec
  | Panic _ => false
  end.

(** The rules of one type of one section among typed rules, in order. *)
Definition rules_for (sec ptype : string) (rules : list (string * list string))
  : list (list string) :=
  map snd
    (List.filter (fun tr => String.eqb (fst tr) ptype && in_section sec ptype) rules).

(** A typed rule the line loader reads back into a model: at most six
    fields, none empty, no separator in the type or in a field, and the type
    declared by the model in the section of its first byte. *)
Definition loadable (model : Model) (tr : string * list string) : Prop :=
  (List.length (snd tr) <= 6)%nat
  /\ Forall (fun f => f <> "") (snd tr)
  /\ Forall (fun f => has_sep f = false) (snd tr)
  /\ has_sep (fst tr) = false
  /\ exists sec, first_byte (fst tr) = Ok sec
                 /\ is_Some (assoc_get (fst tr) (section_of model sec)).


(** The rows of [x_policy]; none when the table is missing. *)
Definition stored (w : World) : list CasbinRule :=
  default [] (tables (server w) !! x_policy).






(** * Properties *)

(** ** Strings and integers *)

Section Strings.

Lemma str_app_cons (c : ascii) (s t : string) :
  String.append (String c s) t = String c (String.append s t).
Proof. reflexivity. Qed.

Lemma str_app_nil_l (t : string) : String.append "" t = t.
Proof. reflexivity. Qed.

Lemma str_app_nil_r (s : string) : String.append s "" = s.
Proof.
  induction s as [|c s IH]; [reflexivity|].
  rewrite str_app_cons, IH. reflexivity.
Qed.

Lemma str_app_assoc (s t u : string) :
  String.append (String.append s t) u = String.append s (String.append t u).
Proof.
  induction s as [|c s IH]; [reflexivity|].
  rewrite !str_app_cons, IH. reflexivity.
Qed.

Lemma nonempty_true (s : string) : nonempty s = true <-> s <> "".
Proof.
  unfold nonempty. rewrite negb_true_iff. apply String.eqb_neq.
Qed.

End Strings.

Section Ints.

Lemma wrap_small (z : Z) : is_int z -> wrap z = z.
Proof.
  unfold is_int, int_min, int_max, wrap. intros Hz.
  rewrite Z.mod_small; lia.
Qed.

Lemma wrap_over (z : Z) : int_max < z <= int_max + 2 ^ 63 -> wrap z = z - 2 ^ 64.
Proof.
  unfold int_max, wrap. intros Hz.
  replace (z + 2 ^ 63) with ((z - 2 ^ 63) + 1 * 2 ^ 64) by lia.
  rewrite Z_mod_plus_full, Z.mod_small; lia.
Qed.

Lemma len_nonneg {A} (s : list A) : 0 <= len s.
Proof. unfold len. lia. Qed.

Lemma len_gtb {A} (s : list A) (k : nat) :
  (len s >? Z.of_nat k) = (k <? List.length s)%nat.
Proof.
  unfold len. rewrite Z.gtb_ltb.
  destruct (k <? List.length s)%nat eqn:E.
  - apply Nat.ltb_lt in E. apply Z.ltb_lt. lia.
  - apply Nat.ltb_ge in E. apply Z.ltb_ge. lia.
Qed.

Lemma index_in_range {A} (s : list A) (i : Z) (d : A) :
  0 <= i < len s -> index s i = Ok (nth (Z.to_nat i) s d).
Proof.
  intros Hi. unfold index.
  replace ((0 <=? i) && (i <? len s)) with true
    by (symmetry; apply andb_true_iff; split; [apply Z.leb_le | apply Z.ltb_lt]; lia).
  destruct (nth_error s (Z.to_nat i)) as [v|] eqn:E.
  - f_equal. symmetry. apply nth_error_nth. exact E.
  - apply nth_error_None in E. unfold len in Hi. lia.
Qed.

End Ints.

(** ** The rule codec: encoding *)

Lemma savePolicyLine_encode_spec (ptype : string) (rule : list string) :
  savePolicyLine ptype rule = encode_spec ptype rule.
Proof.
  unfold savePolicyLine.
  change 0 with (Z.of_nat 0). change 1 with (Z.of_nat 1).
  change 2 with (Z.of_nat 2). change 3 with (Z.of_nat 3).
  change 4 with (Z.of_nat 4). change 5 with (Z.of_nat 5).
  rewrite !len_gtb.
  destruct rule as [|f0 [|f1 [|f2 [|f3 [|f4 [|f5 rest]]]]]]; reflexivity.
Qed.

(** C4: [savePolicyLine] puts the policy type in the type column, puts
    [rule[i]] in value column [i] for every index the rule has among the
    first six, leaves every other value column empty, and does not look at
    the fields from index 6 on. *)
Theorem savePolicyLine_columns (ptype : string) (rule : list string) :
  PType (savePolicyLine ptype rule) = ptype
  /\ (forall (i : nat) (v : string), (i < 6)%nat -> rule !! i = Some v ->
        value_col i (savePolicyLine ptype rule) = v)
  /\ (forall i : nat, (i < 6)%nat -> (List.length rule <= i)%nat ->
        value_col i (savePolicyLine ptype rule) = "")
  /\ savePolicyLine ptype rule = savePolicyLine ptype (take 6 rule).
Proof.
  rewrite !savePolicyLine_encode_spec. repeat split.
  - intros i v Hi Hv.
    do 6 (destruct i as [|i]; [cbn; rewrite Hv; reflexivity|]). lia.
  - intros i Hi Hlen.
    assert (rule !! i = None) as Hnone by (apply lookup_ge_None; lia).
    do 6 (destruct i as [|i]; [cbn; rewrite Hnone; reflexivity|]). lia.
  - unfold encode_spec.
    rewrite !lookup_take_lt by lia. reflexivity.
Qed.

Lemma savePolicyLine_columns_witness :
  value_col 1 (savePolicyLine "p" ["alice"; "data1"; "read"]) = "data1"
  /\ value_col 4 (savePolicyLine "p" ["alice"; "data1"; "read"]) = "".
Proof.
  destruct (savePolicyLine_columns "p" ["alice"; "data1"; "read"])
    as (_ & Hin & Hout & _).
  split.
  - apply (Hin 1%nat "data1"); [lia | reflexivity].
  - apply (Hout 4%nat); [lia | cbn; lia].
Defined.

(** Seven fields: the seventh is dropped. *)
Lemma savePolicyLine_seven_fields :
  savePolicyLine "p" ["a"; "b"; "c"; "d"; "e"; "f"; "g"]
  = mkCasbinRule "p" "a" "b" "c" "d" "e" "f".
Proof. reflexivity. Qed.

(** ** The rule codec: decoding *)

Lemma decode_step (acc v : string) (vs : list string) :
  String.append (if nonempty v then String.append acc (String.append ", " v) else acc)
    (join_all (map (String.append ", ") (List.filter nonempty vs)))
  = String.append acc
      (join_all (map (String.append ", ") (List.filter nonempty (v :: vs)))).
Proof.
  cbn [List.filter]. destruct (nonempty v); [|reflexivity].
  cbn [map join_all fold_right]. rewrite !str_app_assoc. reflexivity.
Qed.

Lemma lineText_decode_spec (line : CasbinRule) :
  lineText line = decode_spec line.
Proof.
  unfold lineText, decode_spec, values.
  rewrite <- !decode_step. cbn [List.filter map join_all fold_right].
  rewrite str_app_nil_r. reflexivity.
Qed.

(** C5: the line [loadPolicyLine] builds is the type column followed by
    the value columns [V0] to [V5] in column order, each after the separator
    [", "], where exactly the value columns that are the empty string are
    left out. *)
Theorem lineText_columns (line : CasbinRule) :
  lineText line
  = String.append (PType line)
      (join_all
         (map (fun v => String.append ", " v)
            (List.filter (fun v => negb (String.eqb v ""))
               [V0 line; V1 line; V2 line; V3 line; V4 line; V5 line]))).
Proof.
  unfold lineText. fold nonempty.
  change (fun v : string => String.append ", " v) with (String.append ", ").
  rewrite <- !decode_step. cbn [List.filter map join_all fold_right].
  rewrite str_app_nil_r. reflexivity.
Qed.

(** ** The rule codec: round trip through the line loader *)

Section Split.

Lemma prefix_sep_cons (c : ascii) (t rest : string) :
  String.prefix ", " (String c t) = false ->
  rest = "" \/ (exists more, rest = String.append ", " more) ->
  String.prefix ", " (String c (String.append t rest)) = false.
Proof.
  intros Hc Hrest. cbn [String.prefix] in *.
  destruct (ascii_dec "," c) as [_|]; [|reflexivity].
  destruct t as [|d t].
  - rewrite str_app_nil_l. destruct Hrest as [->|[more ->]]; reflexivity.
  - rewrite str_app_cons. cbn [String.prefix] in *.
    destruct (ascii_dec " " d); [|reflexivity].
    destruct t; discriminate.
Qed.

(** A piece without separator is read through up to its end. *)
Lemma split_go_token (t cur rest : string) :
  has_sep t = false ->
  rest = "" \/ (exists more, rest = String.append ", " more) ->
  split_go ", " 0 cur (String.append t rest)
  = split_go ", " 0 (String.append cur t) rest.
Proof.
  revert cur. induction t as [|c t IH]; intros cur Ht Hrest.
  - rewrite str_app_nil_l, str_app_nil_r. reflexivity.
  - cbn [has_sep] in Ht. apply orb_false_iff in Ht as [Hc Ht].
    rewrite str_app_cons. cbn [split_go].
    rewrite (prefix_sep_cons c t rest Hc Hrest).
    rewrite IH by assumption.
    rewrite str_app_assoc. reflexivity.
Qed.

Lemma split_go_sep (cur more : string) :
  split_go ", " 0 cur (String.append ", " more)
  = cur :: split_go ", " 0 "" more.
Proof. destruct more; reflexivity. Qed.

Lemma split_go_join (toks : list string) (t0 cur : string) :
  has_sep t0 = false ->
  Forall (fun t => has_sep t = false) toks ->
  split_go ", " 0 cur
    (String.append t0 (join_all (map (String.append ", ") toks)))
  = String.append cur t0 :: toks.
Proof.
  intros H0 Htoks. revert t0 cur H0.
  induction Htoks as [|t1 toks H1 _ IH]; intros t0 cur H0.
  - cbn [map join_all fold_right].
    rewrite split_go_token by (auto; left; reflexivity).
    reflexivity.
  - cbn [map join_all fold_right]. rewrite str_app_assoc.
    rewrite split_go_token by (auto; right; eexists; reflexivity).
    rewrite split_go_sep. f_equal.
    apply (IH t1 "" H1).
Qed.

Lemma Split_join (t0 : string) (toks : list string) :
  has_sep t0 = false ->
  Forall (fun t => has_sep t = false) toks ->
  Split (String.append t0 (join_all (map (String.append ", ") toks))) ", "
  = t0 :: toks.
Proof. intros H0 Htoks. unfold Split. apply (split_go_join toks t0 "" H0 Htoks). Qed.

End Split.

Lemma values_encode_spec (ptype : string) (rule : list string) :
  (List.length rule <= 6)%nat ->
  Forall (fun f => f <> "") rule ->
  List.filter nonempty (values (encode_spec ptype rule)) = rule.
Proof.
  intros Hlen Hne.
  assert (forall f, In f rule -> nonempty f = true) as Hin.
  { intros f Hf. apply nonempty_true. rewrite Forall_forall in Hne.
    apply Hne. apply list_elem_of_In. exact Hf. }
  destruct rule as [|f0 [|f1 [|f2 [|f3 [|f4 [|f5 [|f6 rest]]]]]]];
    cbn in Hlen; try lia;
    cbn [values encode_spec V0 V1 V2 V3 V4 V5 lookup list_lookup default
         option_rect List.filter];
    rewrite ?Hin by (cbn; tauto); reflexivity.
Qed.

Lemma lineText_savePolicyLine (ptype : string) (rule : list string) :
  (List.length rule <= 6)%nat ->
  Forall (fun f => f <> "") rule ->
  lineText (savePolicyLine ptype rule)
  = String.append ptype (join_all (map (String.append ", ") rule)).
Proof.
  intros Hlen Hne.
  rewrite lineText_decode_spec, savePolicyLine_encode_spec.
  unfold decode_spec. rewrite values_encode_spec by assumption. reflexivity.
Qed.

Lemma assoc_get_set_eq {V} (k : string) (v : V) (m : list (string * V)) :
  is_Some (assoc_get k m) -> assoc_get k (assoc_set k v m) = Some v.
Proof.
  induction m as [|[k' v'] m IH]; cbn [assoc_get assoc_set]; intros Hk.
  - destruct Hk as [? Hk]. discriminate.
  - destruct (String.eqb k k') eqn:E; cbn [assoc_get]; rewrite E; auto.
Qed.

Lemma rules_of_with_rule (model : Model) (sec ptype : string) (rule : list string) :
  is_Some (assoc_get ptype (section_of model sec)) ->
  rules_of (with_rule model sec ptype rule) sec ptype
  = (rules_of model sec ptype ++ [rule])%list.
Proof.
  intros [ast Hast]. unfold with_rule, rules_of. rewrite Hast.
  assert (is_Some (assoc_get sec model)) as Hsec.
  { unfold section_of in Hast. destruct (assoc_get sec model); [eauto|discriminate]. }
  unfold section_of at 1. rewrite (assoc_get_set_eq sec _ model Hsec).
  rewrite assoc_get_set_eq by eauto. reflexivity.
Qed.

(** C3, amended: for a non-empty policy type and at most six fields, all
    non-empty and none (the type included) containing the separator
    [", "], the line decoded from the encoded rule is split by the line
    loader into the type and the original fields, in order: loading it into
    a model that declares the type appends exactly the original rule to
    that type's collection. *)
Theorem loadPolicyLine_savePolicyLine
    (ptype sec : string) (rule : list string) (model : Model) :
  (List.length rule <= 6)%nat ->
  Forall (fun f => f <> "") rule ->
  Forall (fun f => has_sep f = false) rule ->
  has_sep ptype = false ->
  first_byte ptype = Ok sec ->
  is_Some (assoc_get ptype (section_of model sec)) ->
  Split (lineText (savePolicyLine ptype rule)) ", " = ptype :: rule
  /\ loadPolicyLine (savePolicyLine ptype rule) model
     = Ok (with_rule model sec ptype rule)
  /\ rules_of (with_rule model sec ptype rule) sec ptype
     = (rules_of model sec ptype ++ [rule])%list.
Proof.
  intros Hlen Hne Hsep Hp Hsec Hdecl.
  assert (Split (lineText (savePolicyLine ptype rule)) ", " = ptype :: rule) as Htok.
  { rewrite lineText_savePolicyLine by assumption. apply Split_join; assumption. }
  split; [exact Htok|]. split; [|apply rules_of_with_rule; exact Hdecl].
  unfold loadPolicyLine, LoadPolicyLine. rewrite Htok.
  rewrite lineText_savePolicyLine by assumption.
  rewrite (index_in_range (ptype :: rule) 0 "")
    by (unfold len; cbn [List.length]; lia).
  destruct ptype as [|c ptype]; [discriminate|]. rewrite str_app_cons.
  change (Z.to_nat 0) with 0%nat.
  cbn [String.eqb nth mbind result_bind drop].
  rewrite Hsec. cbn [mbind result_bind].
  unfold with_rule. destruct Hdecl as [ast Hast]. rewrite Hast.
  reflexivity.
Qed.

Lemma loadPolicyLine_savePolicyLine_witness :
  Split (lineText (savePolicyLine "p" ["alice"; "data1"; "read"])) ", "
  = ["p"; "alice"; "data1"; "read"]
  /\ loadPolicyLine (savePolicyLine "p" ["alice"; "data1"; "read"]) fresh_model
     = Ok (with_rule fresh_model "p" "p" ["alice"; "data1"; "read"])
  /\ rules_of (with_rule fresh_model "p" "p" ["alice"; "data1"; "read"]) "p" "p"
     = (rules_of fresh_model "p" "p" ++ [["alice"; "data1"; "read"]])%list.
Proof.
  apply (loadPolicyLine_savePolicyLine "p" "p" ["alice"; "data1"; "read"] fresh_model).
  - cbn. lia.
  - repeat constructor; discriminate.
  - repeat constructor.
  - reflexivity.
  - reflexivity.
  - cbn. eauto.
Defined.

(** C3 as stated fails: the one non-empty field [a, b] comes back from the
    line loader as the two fields [a] and [b]. *)
Lemma loadPolicyLine_splits_field :
  (List.length ["a, b"] <= 6)%nat
  /\ Forall (fun f => f <> "") ["a, b"]
  /\ exists model' : Model,
       loadPolicyLine (savePolicyLine "p" ["a, b"]) fresh_model = Ok model'
       /\ rules_of model' "p" "p" = [["a"; "b"]]
       /\ rules_of model' "p" "p" <> [["a, b"]].
Proof.
  split; [cbn; lia|]. split; [repeat constructor; discriminate|].
  eexists. split; [vm_compute; reflexivity|]. split; [reflexivity|discriminate].
Qed.

(** No line loader can tell the two rules apart: they have the same
    line. *)
Lemma lineText_collision :
  lineText (savePolicyLine "p" ["a, b"]) = lineText (savePolicyLine "p" ["a"; "b"])
  /\ ["a, b"] <> ["a"; "b"].
Proof. split; [reflexivity|discriminate]. Qed.

(** ** RemoveFilteredPolicy: the row it builds *)

Section Window.

Variables (fieldIndex : Z) (fieldValues : list string).
Hypothesis fieldIndex_int : is_int fieldIndex.
Hypothesis fieldValues_len : len fieldValues <= int_max.

(** Under a guard that holds, neither the sum in the guard nor the
    difference used as index wraps around, and the index is in range. *)
Lemma window_in_bounds (i : Z) :
  0 <= i <= 5 ->
  in_window fieldIndex fieldValues i = true ->
  int_sub i fieldIndex = i - fieldIndex
  /\ 0 <= int_sub i fieldIndex < len fieldValues.
Proof using fieldIndex_int fieldValues_len.
  intros Hi Hw. unfold in_window in Hw.
  apply andb_true_iff in Hw as [Hlo Hhi].
  apply Z.leb_le in Hlo. apply Z.ltb_lt in Hhi.
  pose proof (len_nonneg fieldValues) as Hlen.
  unfold is_int, int_min, int_max in *.
  assert (fieldIndex + len fieldValues <= 2 ^ 63 - 1) as Hsum.
  { destruct (Z_le_gt_dec (fieldIndex + len fieldValues) (2 ^ 63 - 1)) as [|Hover];
      [assumption|].
    unfold int_add in Hhi. rewrite wrap_over in Hhi by (unfold int_max; lia). lia. }
  unfold int_add in Hhi.
  rewrite wrap_small in Hhi by (unfold is_int, int_min, int_max; lia).
  unfold int_sub. rewrite wrap_small by (unfold is_int, int_min, int_max; lia).
  lia.
Qed.

Lemma window_step (i : Z) (set : string -> CasbinRule -> CasbinRule) (line : CasbinRule) :
  0 <= i <= 5 ->
  (if in_window fieldIndex fieldValues i
   then v ← index fieldValues (int_sub i fieldIndex); mret (set v line)
   else mret line)
  = Ok (if in_window fieldIndex fieldValues i
        then set (nth (Z.to_nat (i - fieldIndex)) fieldValues "") line
        else line).
Proof using fieldIndex_int fieldValues_len.
  intros Hi. destruct (in_window fieldIndex fieldValues i) eqn:Hw; [|reflexivity].
  destruct (window_in_bounds i Hi Hw) as [Hsub Hrange].
  rewrite (index_in_range fieldValues _ "" Hrange), Hsub. reflexivity.
Qed.

Lemma filteredLine_picked (ptype : string) :
  filteredLine ptype fieldIndex fieldValues
  = Ok (filteredLine_spec ptype fieldIndex fieldValues).
Proof using fieldIndex_int fieldValues_len.
  unfold filteredLine.
  rewrite (window_step 0 set_V0) by lia. cbn [mbind result_bind].
  rewrite (window_step 1 set_V1) by lia. cbn [mbind result_bind].
  rewrite (window_step 2 set_V2) by lia. cbn [mbind result_bind].
  rewrite (window_step 3 set_V3) by lia. cbn [mbind result_bind].
  rewrite (window_step 4 set_V4) by lia. cbn [mbind result_bind].
  rewrite (window_step 5 set_V5) by lia. cbn [mbind result_bind].
  unfold filteredLine_spec, picked, mret, result_ret. f_equal.
  destruct (in_window fieldIndex fieldValues 0), (in_window fieldIndex fieldValues 1),
    (in_window fieldIndex fieldValues 2), (in_window fieldIndex fieldValues 3),
    (in_window fieldIndex fieldValues 4), (in_window fieldIndex fieldValues 5);
    reflexivity.
Qed.

End Window.

Lemma pg_Delete_no_index_panic (h : option DB) (row : CasbinRule) (w : World) :
  fst (pg_Delete h row w) <> Panic IndexOutOfRange.
Proof.
  unfold pg_Delete. destruct h as [d|]; [|discriminate].
  destruct (db_closed d); discriminate.
Qed.

(** C10: for every [int] [fieldIndex] and every slice [fieldValues],
    whenever a guard [fieldIndex <= i && i < fieldIndex+len(fieldValues)] of
    [RemoveFilteredPolicy] holds, the index [i-fieldIndex] it then reads
    lies in [0, len(fieldValues)); so the row is always built and the
    method never panics with an index out of range. *)
Theorem RemoveFilteredPolicy_index_in_bounds
    (sec ptype : string) (fieldIndex : Z) (fieldValues : list string) :
  is_int fieldIndex ->
  len fieldValues <= int_max ->
  (forall i : Z, 0 <= i <= 5 ->
     in_window fieldIndex fieldValues i = true ->
     0 <= int_sub i fieldIndex < len fieldValues)
  /\ (exists line, filteredLine ptype fieldIndex fieldValues = Ok line)
  /\ (forall w : World,
        fst (RemoveFilteredPolicy sec ptype fieldIndex fieldValues w)
        <> Panic IndexOutOfRange).
Proof.
  intros Hint Hlen. split; [|split].
  - intros i Hi Hw. apply (window_in_bounds _ _ Hint Hlen i Hi Hw).
  - eexists. apply filteredLine_picked; assumption.
  - intros w. unfold RemoveFilteredPolicy.
    rewrite (filteredLine_picked _ _ Hint Hlen ptype).
    unfold lift, get_db, mbind, M_bind, mret, M_ret.
    pose proof (pg_Delete_no_index_panic (db (adapter w))
                  (filteredLine_spec ptype fieldIndex fieldValues) w) as Hd.
    destruct (pg_Delete _ _ w) as [[e|p] w']; cbn in *; [discriminate|exact Hd].
Qed.

Lemma RemoveFilteredPolicy_index_in_bounds_witness :
  (forall i : Z, 0 <= i <= 5 ->
     in_window (-1) ["x"; "alice"; "data1"] i = true ->
     0 <= int_sub i (-1) < len ["x"; "alice"; "data1"])
  /\ (exists line, filteredLine "p" (-1) ["x"; "alice"; "data1"] = Ok line)
  /\ (forall w : World,
        fst (RemoveFilteredPolicy "p" "p" (-1) ["x"; "alice"; "data1"] w)
        <> Panic IndexOutOfRange).
Proof.
  apply (RemoveFilteredPolicy_index_in_bounds "p" "p" (-1) ["x"; "alice"; "data1"]).
  - unfold is_int, int_min, int_max. lia.
  - unfold len, int_max. cbn. lia.
Defined.

(** ** Running the adapter's methods *)

Section Run.

Lemma parse_createTable :
  parse_sql createTable_sql = Some (CreateTableIfNotExists x_policy).
Proof. vm_compute. reflexivity. Qed.

Lemma parse_dropTable : parse_sql dropTable_sql = Some (DropTable x_policy).
Proof. vm_compute. reflexivity. Qed.

Lemma parse_sqlstr : parse_sql LoadPolicy_sqlstr = Some (SelectAll "policy").
Proof. vm_compute. reflexivity. Qed.

Lemma server_exec_create (s : Server) :
  server_exec createTable_sql s = (err_nil, set_tables (ensured (tables s)) s).
Proof.
  unfold server_exec, ensured. rewrite parse_createTable.
  destruct s as [t o r l]. cbn [tables].
  destruct (t !! x_policy); reflexivity.
Qed.

Lemma server_exec_drop (s : Server) :
  is_Some (tables s !! x_policy) ->
  server_exec dropTable_sql s = (err_nil, set_tables (delete x_policy (tables s)) s).
Proof.
  intros [rows Hrows]. unfold server_exec. rewrite parse_dropTable, Hrows.
  reflexivity.
Qed.

Lemma server_query_sqlstr (s : Server) :
  server_query LoadPolicy_sqlstr s
  = match tables s !! "policy" with
    | Some rows => (rows, err_nil)
    | None => ([], err_new "relation does not exist")
    end.
Proof. unfold server_query. rewrite parse_sqlstr. reflexivity. Qed.

Lemma ensured_x_policy (t : gmap string (list CasbinRule)) :
  is_Some (ensured t !! x_policy).
Proof.
  unfold ensured. destruct (t !! x_policy) eqn:E.
  - rewrite E. eauto.
  - rewrite lookup_insert_eq. eauto.
Qed.

Lemma ensured_other (t : gmap string (list CasbinRule)) (name : string) :
  name <> x_policy -> ensured t !! name = t !! name.
Proof.
  intros Hne. unfold ensured. destruct (t !! x_policy); [reflexivity|].
  apply lookup_insert_ne. congruence.
Qed.

(** Create, drop, create: the table is there and empty. *)
Lemma recreated (t : gmap string (list CasbinRule)) :
  ensured (delete x_policy (ensured t)) = <[x_policy := []]> t.
Proof.
  unfold ensured at 1. rewrite lookup_delete_eq.
  rewrite insert_delete_eq. unfold ensured.
  destruct (t !! x_policy); [reflexivity|].
  apply insert_insert_eq.
Qed.

Lemma db_reopened (w : World) :
  db (reopened w) = Some (mkDB (opened (server w)) false).
Proof. reflexivity. Qed.

Lemma open_run (w : World) :
  open w
  = (Ok tt,
     mkWorld (reopened w)
       (mkServer (ensured (tables (server w))) (S (opened (server w)))
          (released (server w))
          (log (server w) ++ [ReqConnect (options_of (adapter w)); ReqExec createTable_sql]))).
Proof.
  unfold open, createTable, pg_Connect, pg_Exec. run_monad.
  rewrite server_exec_create. cbn [panic_on]. run_monad.
  unfold reopened, options_of. rewrite <- app_assoc. reflexivity.
Qed.

Lemma LoadPolicy_run (model : Model) (w : World) :
  LoadPolicy model w
  = match tables (server w) !! "policy" with
    | None => (Ok (err_new "relation does not exist", model), after_load w)
    | Some rows =>
        match load_lines rows model with
        | Ok model' => (Ok (err_nil, model'), after_load w)
        | Panic p => (Panic p, after_load w)
        end
    end.
Proof.
  unfold LoadPolicy. unfold mbind at 1, M_bind at 1. rewrite open_run.
  unfold pg_Query. run_monad. rewrite db_reopened. run_monad.
  rewrite server_query_sqlstr. cbn [tables].
  rewrite ensured_other by discriminate.
  unfold after_load. rewrite <- app_assoc. cbn [app].
  destruct (tables (server w) !! "policy") as [rows|]; cbn [is_nil]; [|reflexivity].
  destruct (load_lines rows model); reflexivity.
Qed.

(** *** Inserts *)

Lemma varchar_fits (n : nat) (v : string) :
  (char_length v <=? n)%nat = true -> varchar n v = Some v.
Proof. intros H. unfold varchar. rewrite H. reflexivity. Qed.

(** A row within the column bounds is stored as it is. *)
Lemma accepted_fits (row : CasbinRule) :
  fits_columns row = true -> accepted row = Some row.
Proof.
  unfold fits_columns, values. cbn [forallb].
  rewrite !andb_true_iff. intros (Hp & H0 & H1 & H2 & H3 & H4 & H5 & _).
  unfold accepted.
  rewrite (varchar_fits _ _ Hp), (varchar_fits _ _ H0), (varchar_fits _ _ H1),
    (varchar_fits _ _ H2), (varchar_fits _ _ H3), (varchar_fits _ _ H4),
    (varchar_fits _ _ H5).
  destruct row; reflexivity.
Qed.

Lemma insert_rows_app (rows rows' : list CasbinRule) (s : Server) :
  insert_rows (rows ++ rows') s
  = let '(e, s') := insert_rows rows s in
    if is_nil e then insert_rows rows' s' else (e, s').
Proof.
  revert s. induction rows as [|row rows IH]; intros s; [reflexivity|].
  cbn [app insert_rows]. destruct (insert_row row s) as [e s1].
  destruct (is_nil e) eqn:E; [apply IH | rewrite E; reflexivity].
Qed.

(** All rows fit: all are stored, in order. *)
Lemma insert_rows_fit (rows : list CasbinRule) :
  forall (s : Server) (rows0 : list CasbinRule),
    tables s !! x_policy = Some rows0 ->
    Forall (fun row => fits_columns row = true) rows ->
    insert_rows rows s
    = (err_nil,
       mkServer (<[x_policy := (rows0 ++ rows)%list]> (tables s)) (opened s) (released s)
         (log s ++ map ReqInsert rows)).
Proof.
  induction rows as [|row rows IH]; intros s rows0 Hrows Hfit.
  - cbn [insert_rows map]. rewrite !app_nil_r, insert_id by exact Hrows.
    destruct s; reflexivity.
  - apply Forall_cons in Hfit as [Hrow Hfit].
    cbn [insert_rows]. unfold insert_row, server_insert, logged, set_tables.
    cbn [tables opened released log]. fold x_policy.
    rewrite Hrows, (accepted_fits row Hrow). cbn [is_nil].
    rewrite (IH _ (rows0 ++ [row])%list) by
      (try assumption; cbn [tables]; apply lookup_insert_eq).
    cbn [tables opened released log map].
    rewrite insert_insert_eq, <- !app_assoc. reflexivity.
Qed.


(** Whatever the rows, inserts leave the connection counts and the other
    tables, and they do not remove the table. *)
Lemma insert_rows_frame (rows : list CasbinRule) :
  forall s : Server,
    opened (snd (insert_rows rows s)) = opened s
    /\ released (snd (insert_rows rows s)) = released s
    /\ (forall name, name <> x_policy ->
          tables (snd (insert_rows rows s)) !! name = tables s !! name)
    /\ (is_Some (tables s !! x_policy) ->
        is_Some (tables (snd (insert_rows rows s)) !! x_policy)).
Proof.
  induction rows as [|row rows IH]; intros s; [cbn; auto|].
  cbn [insert_rows].
  assert (opened (snd (insert_row row s)) = opened s
          /\ released (snd (insert_row row s)) = released s
          /\ (forall name, name <> x_policy ->
                tables (snd (insert_row row s)) !! name = tables s !! name)
          /\ (is_Some (tables s !! x_policy) ->
              is_Some (tables (snd (insert_row row s)) !! x_policy))) as Hone.
  { unfold insert_row, server_insert, logged, set_tables.
    cbn [tables opened released log]. fold x_policy.
    destruct (tables s !! x_policy) as [rows0|] eqn:E; [|cbn; rewrite E; auto].
    destruct (accepted row); cbn [snd tables opened released]; [|rewrite E; eauto].
    repeat split; auto.
    - intros name Hne. apply lookup_insert_ne. congruence.
    - intros _. rewrite lookup_insert_eq. eauto. }
  destruct (insert_row row s) as [e s1]. cbn [snd] in Hone.
  destruct Hone as (Ho & Hr & Ht & Hx).
  destruct (is_nil e); cbn [snd]; [|auto].
  destruct (IH s1) as (Ho' & Hr' & Ht' & Hx').
  repeat split; try congruence.
  - intros name Hne. rewrite Ht' by exact Hne. apply Ht. exact Hne.
  - intros Hsome. apply Hx', Hx, Hsome.
Qed.

Lemma range_err_map {A B} (f : A -> B) (xs : list A) (body : B -> M error) (w : World) :
  range_err (map f xs) body w = range_err xs (fun x => body (f x)) w.
Proof.
  revert w. induction xs as [|x xs IH]; intros w; [reflexivity|].
  cbn [map range_err]. unfold mbind, M_bind.
  destruct (body (f x) w) as [[e|p] w']; [|reflexivity].
  destruct (is_nil e); [apply IH | reflexivity].
Qed.

(** The insert loop through an open handle is [insert_rows] on the
    server. *)
Lemma range_insert_run (a : Adapter) (d : DB) (rows : list CasbinRule) :
  db a = Some d -> db_closed d = false ->
  forall s : Server,
    range_err rows (fun row => h ← get_db; pg_Insert h row) (mkWorld a s)
    = (Ok (fst (insert_rows rows s)), mkWorld a (snd (insert_rows rows s))).
Proof.
  intros Hdb Hopen. induction rows as [|row rows IH]; intros s; [reflexivity|].
  cbn [range_err insert_rows]. run_monad. rewrite Hdb. unfold pg_Insert.
  rewrite Hopen. run_monad. fold (logged (ReqInsert row) s).
  fold (insert_row row s). destruct (insert_row row s) as [e s1].
  destruct (is_nil e) eqn:E; [|reflexivity].
  specialize (IH s1). unfold mbind, M_bind, get_db in IH. cbn [adapter] in IH.
  exact IH.
Qed.

Lemma save_section_run (a : Adapter) (d : DB) (am : AssertionMap) :
  db a = Some d -> db_closed d = false ->
  forall s : Server,
    save_section am (mkWorld a s)
    = (Ok (fst (insert_rows (rows_of_section am) s)),
       mkWorld a (snd (insert_rows (rows_of_section am) s))).
Proof.
  intros Hdb Hopen. unfold save_section.
  induction am as [|[ptype ast] am IH]; intros s; [reflexivity|].
  cbn [range_err]. unfold mbind at 1, M_bind at 1.
  change (range_err (Policy ast)
            (fun rule => let line := savePolicyLine ptype rule in
                         get_db ≫= (fun h => pg_Insert h line)))
    with (range_err (Policy ast)
            (fun rule => (fun row => h ← get_db; pg_Insert h row)
                           (savePolicyLine ptype rule))).
  rewrite <- (range_err_map (savePolicyLine ptype) (Policy ast)
                (fun row => h ← get_db; pg_Insert h row)).
  rewrite (range_insert_run a d _ Hdb Hopen).
  unfold rows_of_section. cbn [flat_map]. fold (rows_of_section am).
  rewrite insert_rows_app.
  destruct (insert_rows (map (savePolicyLine ptype) (Policy ast)) s) as [e s1].
  cbn [fst snd]. destruct (is_nil e); [apply IH | reflexivity].
Qed.

(** [SavePolicy] from any state: open, drop, create, then the inserts of
    the rows of "p" and of "g" up to the first that fails. *)
Lemma SavePolicy_run (model : Model) (w : World) :
  SavePolicy model w
  = (Ok (fst (insert_rows (savedRows model) (recreated_server w))),
     after_save model w).
Proof.
  unfold SavePolicy. unfold mbind at 1, M_bind at 1. rewrite open_run.
  unfold dropTable, createTable, pg_Exec. run_monad.
  rewrite db_reopened. run_monad.
  rewrite server_exec_drop by (cbn [tables]; apply ensured_x_policy).
  cbn [panic_on]. run_monad. rewrite db_reopened. run_monad.
  rewrite server_exec_create. cbn [panic_on]. run_monad.
  rewrite recreated.
  rewrite (save_section_run (reopened w) _ _ (db_reopened w) eq_refl).
  unfold after_save, savedRows. rewrite insert_rows_app.
  unfold recreated_server, save_prologue. rewrite <- !app_assoc. cbn [app].
  match goal with |- context [insert_rows (rows_of_section (section_of model "p")) ?s] =>
    destruct (insert_rows (rows_of_section (section_of model "p")) s) as [e1 s1] end.
  cbn [fst snd]. destruct (is_nil e1) eqn:E1; [|reflexivity].
  rewrite (save_section_run (reopened w) _ _ (db_reopened w) eq_refl).
  destruct (insert_rows (rows_of_section (section_of model "g")) s1) as [e2 s2].
  cbn [fst snd]. destruct e2; reflexivity.
Qed.

(** When every row fits the columns. *)
Lemma SavePolicy_run_fit (model : Model) (w : World) :
  Forall (fun row => fits_columns row = true) (savedRows model) ->
  SavePolicy model w
  = (Ok err_nil,
     mkWorld (reopened w)
       (mkServer (<[x_policy := savedRows model]> (tables (server w)))
          (S (opened (server w))) (released (server w))
          (log (server w) ++ save_prologue (adapter w)
           ++ map ReqInsert (savedRows model)))).
Proof.
  intros Hfit. rewrite SavePolicy_run. unfold after_save.
  rewrite (insert_rows_fit (savedRows model) (recreated_server w) [])
    by (try assumption; apply lookup_insert_eq).
  unfold recreated_server. cbn [fst snd tables opened released log app].
  rewrite insert_insert_eq, <- app_assoc. reflexivity.
Qed.


End Run.

(** ** SavePolicy and LoadPolicy *)





(** C2: the table [LoadPolicy] selects from is not the table that
    [createTable] creates and [dropTable] drops (which is also the table
    the row struct is mapped to). *)
Theorem LoadPolicy_table_mismatch :
  exists queried managed : string,
    parse_sql LoadPolicy_sqlstr = Some (SelectAll queried)
    /\ parse_sql createTable_sql = Some (CreateTableIfNotExists managed)
    /\ parse_sql dropTable_sql = Some (DropTable managed)
    /\ CasbinRule_TableName = managed
    /\ queried <> managed.
Proof.
  exists "policy", x_policy.
  split; [apply parse_sqlstr|]. split; [apply parse_createTable|].
  split; [apply parse_dropTable|]. split; [reflexivity|]. discriminate.
Qed.

(** What [LoadPolicy] returns is decided by the table named policy alone:
    where there is none, it returns the query's error and the model is as
    it was, whatever [x_policy] holds. *)
Lemma LoadPolicy_without_policy_table (model : Model) (w : World) :
  tables (server w) !! "policy" = None ->
  LoadPolicy model w
  = (Ok (err_new "relation does not exist", model), after_load w).
Proof. intros Hnone. rewrite LoadPolicy_run, Hnone. reflexivity. Qed.

(** The rows [SavePolicy] stores for the example decode to the example's
    rules: the codec is not what loses them. *)
Lemma load_lines_savedRows_example :
  exists model' : Model,
    load_lines (savedRows example_model) fresh_model = Ok model'
    /\ rules_of model' "p" "p" = rules_of example_model "p" "p"
    /\ rules_of model' "g" "g" = rules_of example_model "g" "g".
Proof. eexists. split; [vm_compute; reflexivity|]. split; reflexivity. Qed.

(** C1, on the code: after [SavePolicy] of the example model through a new
    adapter on an empty database, [x_policy] holds the three rows, and
    [LoadPolicy] into a fresh model returns an error and leaves the model
    without any rule. *)
Theorem SavePolicy_LoadPolicy_example :
  exists w1 w2 : World,
    SavePolicy example_model new_world = (Ok err_nil, w1)
    /\ tables (server w1) !! x_policy
       = Some [mkCasbinRule "p" "alice" "data1" "read" "" "" "";
               mkCasbinRule "p" "bob" "data2" "write" "" "" "";
               mkCasbinRule "g" "alice" "admin" "" "" "" ""]
    /\ LoadPolicy fresh_model w1
       = (Ok (err_new "relation does not exist", fresh_model), w2)
    /\ rules_of fresh_model "p" "p" = []
    /\ rules_of fresh_model "g" "g" = []
    /\ rules_of example_model "p" "p"
       = [["alice"; "data1"; "read"]; ["bob"; "data2"; "write"]]
    /\ rules_of example_model "g" "g" = [["alice"; "admin"]].
Proof.
  assert (Forall (fun row => fits_columns row = true) (savedRows example_model)) as Hfit
    by (repeat constructor).
  eexists _, _. split; [apply (SavePolicy_run_fit example_model new_world Hfit)|].
  split; [cbn [server tables]; rewrite lookup_insert_eq; reflexivity|].
  split; [|repeat split; reflexivity].
  apply LoadPolicy_without_policy_table.
  cbn [server tables new_world new_server].
  rewrite lookup_insert_ne by discriminate. apply lookup_empty.
Qed.

(** ** The connection *)

Section Connection.

Lemma pg_Insert_untouched (row : CasbinRule) (w : World) :
  connection_untouched w (snd ((h ← get_db; pg_Insert h row) w)).
Proof.
  run_monad. unfold pg_Insert, connection_untouched.
  destruct (db (adapter w)) as [d|]; [|run_monad; auto].
  destruct (db_closed d); run_monad; auto.
  unfold server_insert. cbn [tables].
  destruct (tables (server w) !! CasbinRule_TableName); [|cbn; auto].
  destruct (accepted row); cbn; auto.
Qed.

Lemma pg_Delete_untouched (row : CasbinRule) (w : World) :
  connection_untouched w (snd ((h ← get_db; pg_Delete h row) w)).
Proof.
  run_monad. unfold pg_Delete, connection_untouched.
  destruct (db (adapter w)) as [d|]; [|run_monad; auto].
  destruct (db_closed d); run_monad; auto.
Qed.

Lemma AddPolicy_untouched (sec ptype : string) (rule : list string) (w : World) :
  connection_untouched w (snd (AddPolicy sec ptype rule w)).
Proof.
  pose proof (pg_Insert_untouched (savePolicyLine ptype rule) w) as H.
  unfold AddPolicy. cbn zeta. revert H. run_monad.
  destruct (pg_Insert _ _ w) as [[e|p] w']; [destruct e|]; cbn; auto.
Qed.

Lemma RemovePolicy_untouched (sec ptype : string) (rule : list string) (w : World) :
  connection_untouched w (snd (RemovePolicy sec ptype rule w)).
Proof.
  pose proof (pg_Delete_untouched (savePolicyLine ptype rule) w) as H.
  unfold RemovePolicy. cbn zeta. revert H. run_monad.
  destruct (pg_Delete _ _ w) as [[e|p] w']; cbn; auto.
Qed.

Lemma RemoveFilteredPolicy_untouched (sec ptype : string) (fieldIndex : Z)
    (fieldValues : list string) (w : World) :
  connection_untouched w (snd (RemoveFilteredPolicy sec ptype fieldIndex fieldValues w)).
Proof.
  unfold RemoveFilteredPolicy. unfold mbind at 1, M_bind at 1, lift.
  destruct (filteredLine ptype fieldIndex fieldValues) as [line|p].
  - pose proof (pg_Delete_untouched line w) as H. revert H. run_monad.
    destruct (pg_Delete _ _ w) as [[e|p] w']; cbn; auto.
  - cbn. unfold connection_untouched. auto.
Qed.

Lemma after_load_reopened (w : World) : connection_reopened w (after_load w).
Proof.
  unfold connection_reopened, after_load, live_connections. cbn.
  repeat split; auto; [lia|]. apply ensured_x_policy.
Qed.

Lemma after_save_reopened (model : Model) (w : World) :
  connection_reopened w (after_save model w).
Proof.
  destruct (insert_rows_frame (savedRows model) (recreated_server w))
    as (Ho & Hr & _ & Hx).
  unfold connection_reopened, after_save, live_connections.
  cbn [adapter server]. rewrite Ho, Hr. unfold recreated_server.
  cbn [opened released tables]. cbn.
  repeat split; auto; [lia|]. apply Hx.
  exists []. apply lookup_insert_eq.
Qed.

End Connection.

(** C9, amended: from every state, [LoadPolicy] and [SavePolicy] store a
    fresh open handle in the adapter and ensure the table exists;
    [AddPolicy], [RemovePolicy] and [RemoveFilteredPolicy] open nothing and
    leave the adapter's handle and its connection state as they were; none
    of the five releases a connection. *)
Theorem connection_lifecycle (w : World) :
  (forall model, connection_reopened w (snd (LoadPolicy model w)))
  /\ (forall model, connection_reopened w (snd (SavePolicy model w)))
  /\ (forall sec ptype rule,
        connection_untouched w (snd (AddPolicy sec ptype rule w)))
  /\ (forall sec ptype rule,
        connection_untouched w (snd (RemovePolicy sec ptype rule w)))
  /\ (forall sec ptype fieldIndex fieldValues,
        connection_untouched w
          (snd (RemoveFilteredPolicy sec ptype fieldIndex fieldValues w))).
Proof.
  split; [|split; [|split; [|split]]].
  - intros model. rewrite LoadPolicy_run.
    destruct (tables (server w) !! "policy") as [rows|];
      [destruct (load_lines rows model)|]; apply after_load_reopened.
  - intros model. rewrite SavePolicy_run. apply after_save_reopened.
  - intros sec ptype rule. apply AddPolicy_untouched.
  - intros sec ptype rule. apply RemovePolicy_untouched.
  - intros sec ptype fieldIndex fieldValues. apply RemoveFilteredPolicy_untouched.
Qed.

(** C9 as stated fails: [AddPolicy] on a new adapter opens no connection;
    it dereferences the nil handle and the adapter stays unopened. *)
Lemma AddPolicy_unopened :
  conn_state (adapter new_world) = Unopened
  /\ AddPolicy "p" "p" ["alice"; "data1"; "read"] new_world
     = (Panic NilDereference, new_world)
  /\ conn_state (adapter (snd (AddPolicy "p" "p" ["alice"; "data1"; "read"] new_world)))
     <> Open
  /\ opened (server (snd (AddPolicy "p" "p" ["alice"; "data1"; "read"] new_world)))
     = 0%nat.
Proof. split; [reflexivity|]. split; [reflexivity|]. split; [discriminate|reflexivity]. Qed.

(** ** Deleting *)

Section Delete.

(** Through an open handle the delete is refused by the client: the record
    names no primary key.  Nothing reaches the server. *)
Lemma pg_Delete_run (d : DB) (row : CasbinRule) (w : World) :
  db_closed d = false ->
  pg_Delete (Some d) row w = (Ok pk_error, w).
Proof. intros Hopen. unfold pg_Delete. rewrite Hopen. reflexivity. Qed.

Lemma RemovePolicy_run (sec ptype : string) (rule : list string) (w : World) (d : DB) :
  db (adapter w) = Some d ->
  db_closed d = false ->
  RemovePolicy sec ptype rule w = (Ok pk_error, w).
Proof.
  intros Hdb Hopen. unfold RemovePolicy. cbn zeta. run_monad.
  rewrite Hdb, (pg_Delete_run d _ w Hopen). reflexivity.
Qed.

Lemma RemoveFilteredPolicy_run (sec ptype : string) (fieldIndex : Z)
    (fieldValues : list string) (line : CasbinRule) (w : World) (d : DB) :
  filteredLine ptype fieldIndex fieldValues = Ok line ->
  db (adapter w) = Some d ->
  db_closed d = false ->
  RemoveFilteredPolicy sec ptype fieldIndex fieldValues w = (Ok pk_error, w).
Proof.
  intros Hline Hdb Hopen. unfold RemoveFilteredPolicy. rewrite Hline. run_monad.
  rewrite Hdb, (pg_Delete_run d _ w Hopen). reflexivity.
Qed.

End Delete.

(** C8, the code at the failing input: the table holds the one row
    (p, alice, data1, read), no stored row equals the encoding of the rule
    (bob, data2, write), and [RemovePolicy] of that rule through the open
    handle leaves the table as it was but does not report success: it
    returns the client's error for a record without primary key. *)
Theorem RemovePolicy_absent_refused :
  tables (server example_world) !! x_policy = Some [example_row]
  /\ example_row <> savePolicyLine "p" ["bob"; "data2"; "write"]
  /\ RemovePolicy "p" "p" ["bob"; "data2"; "write"] example_world
     = (Ok pk_error, example_world)
  /\ is_nil pk_error = false.
Proof.
  split; [vm_compute; reflexivity|]. split; [discriminate|].
  split; [|reflexivity].
  apply (RemovePolicy_run "p" "p" ["bob"; "data2"; "write"] example_world (mkDB 0 false));
    reflexivity.
Qed.

(** C7, the code at the failing input: the table holds the one row
    (p, alice, data1, read); [RemoveFilteredPolicy] with index 1 and the
    value data1 builds the row (p, "", data1, "", "", "", "") and hands it
    to the client's delete, which returns its error for a record without
    primary key: the stored row is not deleted. *)
Theorem RemoveFilteredPolicy_example_refused :
  tables (server example_world) !! x_policy = Some [example_row]
  /\ filteredLine "p" 1 ["data1"] = Ok (mkCasbinRule "p" "" "data1" "" "" "" "")
  /\ RemoveFilteredPolicy "p" "p" 1 ["data1"] example_world
     = (Ok pk_error, example_world)
  /\ is_nil pk_error = false.
Proof.
  split; [vm_compute; reflexivity|]. split; [reflexivity|].
  split; [|reflexivity].
  apply (RemoveFilteredPolicy_run "p" "p" 1 ["data1"]
           (mkCasbinRule "p" "" "data1" "" "" "" "") example_world (mkDB 0 false));
    reflexivity.
Qed.

(** The row handed to the client does not record which columns the caller
    named: an empty value at any index gives the row of a call without
    values, and the specification's filtered delete hands over the row that
    [RemovePolicy] builds for the rule with an empty first field. *)
Lemma filteredLine_forgets_window :
  filteredLine "p" 1 [""] = filteredLine "p" 2 [""]
  /\ filteredLine "p" 1 [""] = filteredLine "p" 0 []
  /\ filteredLine "p" 1 ["data1"] = Ok (savePolicyLine "p" [""; "data1"]).
Proof. repeat split; reflexivity. Qed.

(** * Further properties of the code *)

(** ** The codec beyond well-formed rules *)

(** X1: on rules of at most six non-empty fields [savePolicyLine] loses
    nothing: equal rows come from equal types and equal rules. *)
Theorem savePolicyLine_injective (ptype1 ptype2 : string) (rule1 rule2 : list string) :
  (List.length rule1 <= 6)%nat -> (List.length rule2 <= 6)%nat ->
  Forall (fun f => f <> "") rule1 -> Forall (fun f => f <> "") rule2 ->
  savePolicyLine ptype1 rule1 = savePolicyLine ptype2 rule2 ->
  ptype1 = ptype2 /\ rule1 = rule2.
Proof.
  intros Hl1 Hl2 Hn1 Hn2. rewrite !savePolicyLine_encode_spec. intros Heq. split.
  - apply (f_equal PType) in Heq. exact Heq.
  - rewrite <- (values_encode_spec ptype1 rule1 Hl1 Hn1).
    rewrite <- (values_encode_spec ptype2 rule2 Hl2 Hn2).
    rewrite Heq. reflexivity.
Qed.

Lemma savePolicyLine_injective_witness :
  "p" = "p" /\ ["alice"; "data1"; "read"] = ["alice"; "data1"; "read"].
Proof.
  apply (savePolicyLine_injective "p" "p" ["alice"; "data1"; "read"]
           ["alice"; "data1"; "read"]).
  - cbn. lia.
  - cbn. lia.
  - repeat constructor; discriminate.
  - repeat constructor; discriminate.
  - reflexivity.
Defined.

Lemma lookup_padded (rule : list string) (n i : nat) :
  default "" ((rule ++ replicate n "")%list !! i) = default "" (rule !! i).
Proof.
  destruct (Nat.lt_ge_cases i (List.length rule)) as [Hlt|Hge].
  - rewrite lookup_app_l by exact Hlt. reflexivity.
  - rewrite lookup_app_r by exact Hge.
    rewrite (lookup_ge_None_2 rule i) by exact Hge.
    destruct (replicate n "" !! (i - List.length rule)%nat) as [v|] eqn:E;
      [|reflexivity].
    apply lookup_replicate in E as [-> _]. reflexivity.
Qed.

(** X2: empty strings at the end of a rule leave no trace in the row: the
    rule with them and the rule without them have the same encoding. *)
Theorem savePolicyLine_trailing_empty (ptype : string) (rule : list string) (n : nat) :
  savePolicyLine ptype (rule ++ replicate n "")%list = savePolicyLine ptype rule.
Proof.
  rewrite !savePolicyLine_encode_spec. unfold encode_spec.
  rewrite !lookup_padded. reflexivity.
Qed.

Lemma values_encode_spec_any (ptype : string) (rule : list string) :
  List.filter nonempty (values (encode_spec ptype rule))
  = List.filter nonempty (take 6 rule).
Proof.
  destruct rule as [|f0 [|f1 [|f2 [|f3 [|f4 [|f5 rest]]]]]]; reflexivity.
Qed.

(** X3: for every rule, the line decoded from its encoding is the type
    followed by the non-empty fields among the first six, in order: an
    empty field, wherever it stands, and every field from the seventh on
    is missing from the line. *)
Theorem lineText_savePolicyLine_any (ptype : string) (rule : list string) :
  lineText (savePolicyLine ptype rule)
  = String.append ptype
      (join_all (map (String.append ", ") (List.filter nonempty (take 6 rule)))).
Proof.
  rewrite lineText_decode_spec, savePolicyLine_encode_spec.
  unfold decode_spec. rewrite values_encode_spec_any. reflexivity.
Qed.

(** ** RemoveFilteredPolicy and RemovePolicy send the same rows *)

Section Shifted.

Variables (fieldIndex : Z) (fieldValues : list string).
Hypothesis fieldIndex_int : is_int fieldIndex.
Hypothesis fieldValues_room : len fieldValues <= int_max - 5.



End Shifted.



(** X5: when no given value falls on one of the six columns (no values
    given, an index of 6 or more, or all values before column 0),
    [RemoveFilteredPolicy] does not fail on the indices: the row it builds
    carries the policy type and no value, and from every state the call
    does what [RemovePolicy] does for the rule without fields. *)
Theorem RemoveFilteredPolicy_no_column
    (sec ptype : string) (fieldIndex : Z) (fieldValues : list string) (w : World) :
  is_int fieldIndex ->
  len fieldValues <= int_max ->
  fieldValues = [] \/ 6 <= fieldIndex \/ fieldIndex + len fieldValues <= 0 ->
  filteredLine ptype fieldIndex fieldValues = Ok (mkCasbinRule ptype "" "" "" "" "" "")
  /\ RemoveFilteredPolicy sec ptype fieldIndex fieldValues w
     = RemovePolicy sec ptype [] w.
Proof.
  intros Hint Hlen Hout.
  pose proof (len_nonneg fieldValues) as Hnn.
  assert (forall i, 0 <= i <= 5 -> in_window fieldIndex fieldValues i = false) as Hw.
  { intros i Hi. unfold in_window, int_add. apply andb_false_iff.
    unfold is_int, int_min, int_max in *.
    destruct Hout as [->|[Hbig|Hsmall]].
    - change (len []) with 0. rewrite Z.add_0_r.
      rewrite wrap_small by (unfold is_int, int_min, int_max; lia).
      destruct (Z_le_gt_dec fieldIndex i);
        [right; apply Z.ltb_ge; lia | left; apply Z.leb_gt; lia].
    - left. apply Z.leb_gt. lia.
    - right. rewrite wrap_small by (unfold is_int, int_min, int_max; lia).
      apply Z.ltb_ge. lia. }
  assert (filteredLine ptype fieldIndex fieldValues
          = Ok (mkCasbinRule ptype "" "" "" "" "" "")) as Hline.
  { rewrite filteredLine_picked by assumption.
    unfold filteredLine_spec, picked. rewrite !Hw by lia. reflexivity. }
  split; [exact Hline|].
  unfold RemoveFilteredPolicy, RemovePolicy. rewrite Hline. reflexivity.
Qed.

Lemma RemoveFilteredPolicy_no_column_witness :
  filteredLine "p" 6 ["data1"] = Ok (mkCasbinRule "p" "" "" "" "" "" "")
  /\ RemoveFilteredPolicy "p" "p" 6 ["data1"] example_world
     = RemovePolicy "p" "p" [] example_world.
Proof.
  apply (RemoveFilteredPolicy_no_column "p" "p" 6 ["data1"] example_world).
  - unfold is_int, int_min, int_max. lia.
  - unfold len, int_max. cbn. lia.
  - right. left. lia.
Defined.

(** ** Adding and removing single rules *)

Section Single.





End Single.





(** X8: [RemovePolicy] and [RemoveFilteredPolicy] delete nothing and never
    report success: for every argument and from every state, the adapter
    and the server after the call are those before it, no request was
    sent, and the call does not return nil. *)
Theorem RemovePolicy_removes_nothing
    (sec ptype : string) (rule : list string) (fieldIndex : Z)
    (fieldValues : list string) (w : World) :
  snd (RemovePolicy sec ptype rule w) = w
  /\ fst (RemovePolicy sec ptype rule w) <> Ok err_nil
  /\ snd (RemoveFilteredPolicy sec ptype fieldIndex fieldValues w) = w
  /\ fst (RemoveFilteredPolicy sec ptype fieldIndex fieldValues w) <> Ok err_nil.
Proof.
  assert (forall row,
            exists r, (h ← get_db; err ← pg_Delete h row; mret err) w = (r, w)
                      /\ r <> Ok err_nil) as Hdel.
  { intros row. run_monad. unfold pg_Delete.
    destruct (db (adapter w)) as [d|]; [destruct (db_closed d)|];
      run_monad; eexists; (split; [reflexivity|discriminate]). }
  unfold RemovePolicy, RemoveFilteredPolicy. cbn zeta.
  destruct (Hdel (savePolicyLine ptype rule)) as (r & -> & Hr).
  split; [reflexivity|]. split; [exact Hr|].
  assert (forall A (c : result A) (k : A -> M error),
            (x ← lift c; k x) w
            = match c with Ok x => k x w | Panic p => (Panic p, w) end) as Hlift
    by (intros A [x|p] k; reflexivity).
  rewrite Hlift.
  destruct (filteredLine ptype fieldIndex fieldValues) as [line|p].
  - destruct (Hdel line) as (r' & -> & Hr'). split; [reflexivity|exact Hr'].
  - split; [reflexivity|discriminate].
Qed.

(** ** What the methods leave in the database *)

Section Frames.

Lemma ensured_stored (t : gmap string (list CasbinRule)) :
  ensured t !! x_policy = Some (default [] (t !! x_policy)).
Proof.
  unfold ensured. destruct (t !! x_policy) as [rows|] eqn:E.
  - rewrite E. reflexivity.
  - rewrite lookup_insert_eq. reflexivity.
Qed.

Lemma ensured_keeps (t : gmap string (list CasbinRule)) (name : string)
    (rows : list CasbinRule) :
  t !! name = Some rows -> ensured t !! name = Some rows.
Proof.
  intros Hrows. unfold ensured. destruct (t !! x_policy) as [xs|] eqn:E; [exact Hrows|].
  rewrite lookup_insert_ne; [exact Hrows|]. intros <-. congruence.
Qed.

Lemma ensured_ensured (t : gmap string (list CasbinRule)) :
  ensured (ensured t) = ensured t.
Proof.
  unfold ensured at 1. rewrite ensured_stored. reflexivity.
Qed.

Lemma pg_Insert_frame (h : option DB) (row : CasbinRule) (w : World) (name : string) :
  name <> x_policy ->
  tables (server (snd (pg_Insert h row w))) !! name = tables (server w) !! name.
Proof.
  intros Hne. unfold pg_Insert. destruct h as [d|]; [|reflexivity].
  destruct (db_closed d); [reflexivity|]. run_monad.
  unfold server_insert. cbn [tables]. fold x_policy.
  destruct (tables (server w) !! x_policy); [|reflexivity].
  destruct (accepted row); cbn [snd server tables]; [|reflexivity].
  apply lookup_insert_ne. congruence.
Qed.

Lemma pg_Delete_frame (h : option DB) (row : CasbinRule) (w : World) (name : string) :
  name <> x_policy ->
  tables (server (snd (pg_Delete h row w))) !! name = tables (server w) !! name.
Proof.
  intros Hne. unfold pg_Delete. destruct h as [d|]; [|reflexivity].
  destruct (db_closed d); reflexivity.
Qed.

End Frames.



(** X10: no method touches a table other than [x_policy]: whatever the
    state and the arguments, and whether the method returns nil, an error
    or panics, every other table is afterwards what it was. *)
Theorem other_tables_untouched (name : string) (w : World) :
  name <> x_policy ->
  (forall model,
     tables (server (snd (LoadPolicy model w))) !! name = tables (server w) !! name)
  /\ (forall model,
        tables (server (snd (SavePolicy model w))) !! name = tables (server w) !! name)
  /\ (forall sec ptype rule,
        tables (server (snd (AddPolicy sec ptype rule w))) !! name
        = tables (server w) !! name)
  /\ (forall sec ptype rule,
        tables (server (snd (RemovePolicy sec ptype rule w))) !! name
        = tables (server w) !! name)
  /\ (forall sec ptype fieldIndex fieldValues,
        tables (server (snd (RemoveFilteredPolicy sec ptype fieldIndex fieldValues w))) !! name
        = tables (server w) !! name).
Proof.
  intros Hne. split; [|split; [|split; [|split]]].
  - intros model. rewrite LoadPolicy_run.
    destruct (tables (server w) !! "policy") as [rows|];
      [destruct (load_lines rows model)|];
      cbn [snd after_load server tables]; apply ensured_other; exact Hne.
  - intros model. rewrite SavePolicy_run. cbn [snd after_save server].
    destruct (insert_rows_frame (savedRows model) (recreated_server w))
      as (_ & _ & Hother & _).
    rewrite (Hother name Hne). unfold recreated_server. cbn [tables].
    apply lookup_insert_ne. congruence.
  - intros sec ptype rule.
    pose proof (pg_Insert_frame (db (adapter w)) (savePolicyLine ptype rule) w name Hne) as H.
    unfold AddPolicy. cbn zeta. revert H. run_monad.
    destruct (pg_Insert _ _ w) as [[e|p] w']; [destruct e|]; cbn; auto.
  - intros sec ptype rule.
    pose proof (pg_Delete_frame (db (adapter w)) (savePolicyLine ptype rule) w name Hne) as H.
    unfold RemovePolicy. cbn zeta. revert H. run_monad.
    destruct (pg_Delete _ _ w) as [[e|p] w']; cbn; auto.
  - intros sec ptype fieldIndex fieldValues.
    unfold RemoveFilteredPolicy. unfold mbind at 1, M_bind at 1, lift.
    destruct (filteredLine ptype fieldIndex fieldValues) as [line|p]; [|reflexivity].
    pose proof (pg_Delete_frame (db (adapter w)) line w name Hne) as H.
    revert H. run_monad.
    destruct (pg_Delete _ _ w) as [[e|p] w']; cbn; auto.
Qed.

Lemma other_tables_untouched_witness :
  tables (server (snd (SavePolicy example_model example_world))) !! "policy"
  = tables (server example_world) !! "policy".
Proof.
  destruct (other_tables_untouched "policy" example_world) as (_ & Hsave & _).
  - discriminate.
  - apply Hsave.
Defined.

(** X11: [LoadPolicy] stores nothing and creates the table: whatever it
    returns, every table that existed keeps its rows, [x_policy] included,
    and [x_policy] exists afterwards, empty when it did not exist. *)
Theorem LoadPolicy_keeps_rows (model : Model) (w : World) :
  (forall name rows,
     tables (server w) !! name = Some rows ->
     tables (server (snd (LoadPolicy model w))) !! name = Some rows)
  /\ tables (server (snd (LoadPolicy model w))) !! x_policy = Some (stored w)
  /\ stored (snd (LoadPolicy model w)) = stored w.
Proof.
  assert (tables (server (snd (LoadPolicy model w))) = ensured (tables (server w))) as Ht.
  { rewrite LoadPolicy_run.
    destruct (tables (server w) !! "policy") as [rows|];
      [destruct (load_lines rows model)|]; reflexivity. }
  unfold stored. rewrite Ht. split; [|split].
  - intros name rows. apply ensured_keeps.
  - apply ensured_stored.
  - rewrite ensured_stored. reflexivity.
Qed.

Lemma LoadPolicy_keeps_rows_witness :
  tables (server (snd (LoadPolicy fresh_model example_world))) !! x_policy
  = Some [example_row].
Proof.
  destruct (LoadPolicy_keeps_rows fresh_model example_world) as (Hkeep & _).
  apply Hkeep. vm_compute. reflexivity.
Defined.

(** ** Which calls need an earlier load or save *)

(** X12: on an adapter as [NewAdapter] returns it, [AddPolicy],
    [RemovePolicy] and [RemoveFilteredPolicy] panic on the nil handle,
    whatever the arguments and the database, and change nothing. *)
Theorem incremental_methods_need_open
    (user password database addr : string) (s : Server)
    (sec ptype : string) (rule : list string) (fieldIndex : Z) :
  is_int fieldIndex ->
  len rule <= int_max ->
  let w := mkWorld (NewAdapter user password database addr) s in
  conn_state (adapter w) = Unopened
  /\ AddPolicy sec ptype rule w = (Panic NilDereference, w)
  /\ RemovePolicy sec ptype rule w = (Panic NilDereference, w)
  /\ RemoveFilteredPolicy sec ptype fieldIndex rule w = (Panic NilDereference, w).
Proof.
  intros Hint Hlen w. split; [reflexivity|]. split; [reflexivity|].
  split; [reflexivity|].
  unfold RemoveFilteredPolicy. rewrite (filteredLine_picked _ _ Hint Hlen ptype).
  reflexivity.
Qed.

Lemma incremental_methods_need_open_witness :
  AddPolicy "p" "p" ["alice"; "data1"; "read"] new_world = (Panic NilDereference, new_world)
  /\ RemoveFilteredPolicy "p" "p" 1 ["alice"; "data1"; "read"] new_world
     = (Panic NilDereference, new_world).
Proof.
  destruct (incremental_methods_need_open "casbin" "secret" "casbin" "localhost:5432"
              new_server "p" "p" ["alice"; "data1"; "read"] 1)
    as (_ & Hadd & _ & Hfilt).
  - unfold is_int, int_min, int_max. lia.
  - unfold len, int_max. cbn. lia.
  - split; [exact Hadd | exact Hfilt].
Defined.



(** ** The table and the connection *)

Section Schema.

Lemma createTable_run (a : Adapter) (s : Server) (d : DB) :
  db a = Some d -> db_closed d = false ->
  createTable (mkWorld a s)
  = (Ok tt,
     mkWorld a (mkServer (ensured (tables s)) (opened s) (released s)
                  (log s ++ [ReqExec createTable_sql]))).
Proof.
  intros Hdb Hopen. unfold createTable, pg_Exec. run_monad. rewrite Hdb, Hopen.
  run_monad. rewrite server_exec_create. reflexivity.
Qed.

Lemma dropTable_run (a : Adapter) (s : Server) (d : DB) :
  db a = Some d -> db_closed d = false -> is_Some (tables s !! x_policy) ->
  dropTable (mkWorld a s)
  = (Ok tt,
     mkWorld a (mkServer (delete x_policy (tables s)) (opened s) (released s)
                  (log s ++ [ReqExec dropTable_sql]))).
Proof.
  intros Hdb Hopen Hsome. unfold dropTable, pg_Exec. run_monad. rewrite Hdb, Hopen.
  run_monad. rewrite server_exec_drop by exact Hsome. reflexivity.
Qed.

Lemma dropTable_absent_run (a : Adapter) (s : Server) (d : DB) :
  db a = Some d -> db_closed d = false -> tables s !! x_policy = None ->
  dropTable (mkWorld a s)
  = (Panic (PanicErr "table does not exist"),
     mkWorld a (mkServer (tables s) (opened s) (released s)
                  (log s ++ [ReqExec dropTable_sql]))).
Proof.
  intros Hdb Hopen Hnone. unfold dropTable, pg_Exec. run_monad. rewrite Hdb, Hopen.
  run_monad. unfold server_exec. rewrite parse_dropTable. cbn [tables].
  rewrite Hnone. reflexivity.
Qed.

End Schema.

(** X14: through an open handle [createTable] never panics and never
    costs a row: it returns, every table that existed keeps its rows,
    [x_policy] exists afterwards, and calling it again changes no table. *)
Theorem createTable_idempotent (w : World) (d : DB) :
  db (adapter w) = Some d -> db_closed d = false ->
  exists w1 w2 : World,
    createTable w = (Ok tt, w1)
    /\ tables (server w1) !! x_policy = Some (stored w)
    /\ (forall name rows,
          tables (server w) !! name = Some rows ->
          tables (server w1) !! name = Some rows)
    /\ createTable w1 = (Ok tt, w2)
    /\ tables (server w2) = tables (server w1).
Proof.
  intros Hdb Hopen. destruct w as [a s]. cbn [adapter server] in *.
  eexists _, _. split; [apply (createTable_run a s d Hdb Hopen)|].
  cbn [server tables]. split; [apply ensured_stored|].
  split; [intros name rows; apply ensured_keeps|].
  split; [apply (createTable_run a _ d Hdb Hopen)|].
  cbn [server tables]. apply ensured_ensured.
Qed.

Lemma createTable_idempotent_witness :
  exists w1 w2 : World,
    createTable example_world = (Ok tt, w1)
    /\ tables (server w1) !! x_policy = Some [example_row]
    /\ createTable w1 = (Ok tt, w2)
    /\ tables (server w2) = tables (server w1).
Proof.
  destruct (createTable_idempotent example_world (mkDB 0 false))
    as (w1 & w2 & H1 & Hx & _ & H2 & Ht); [reflexivity | reflexivity |].
  exists w1, w2. split; [exact H1|]. split; [exact Hx|]. split; [exact H2 | exact Ht].
Defined.

(** X15: through an open handle [dropTable] removes the table with all its
    rows and leaves the other tables; when the table does not exist it
    panics with the server's error, so dropping twice in a row panics at
    the second call. *)
Theorem dropTable_needs_table (w : World) (d : DB) :
  db (adapter w) = Some d -> db_closed d = false ->
  (tables (server w) !! x_policy = None ->
   fst (dropTable w) = Panic (PanicErr "table does not exist")
   /\ tables (server (snd (dropTable w))) = tables (server w))
  /\ (is_Some (tables (server w) !! x_policy) ->
      fst (dropTable w) = Ok tt
      /\ tables (server (snd (dropTable w))) = delete x_policy (tables (server w))
      /\ fst (dropTable (snd (dropTable w))) = Panic (PanicErr "table does not exist")).
Proof.
  intros Hdb Hopen. destruct w as [a s]. cbn [adapter server] in *. split.
  - intros Hnone. rewrite (dropTable_absent_run a s d Hdb Hopen Hnone).
    split; reflexivity.
  - intros Hsome. rewrite (dropTable_run a s d Hdb Hopen Hsome). cbn [fst snd].
    split; [reflexivity|]. split; [reflexivity|].
    rewrite (dropTable_absent_run a _ d Hdb Hopen)
      by (cbn [tables]; apply lookup_delete_eq).
    reflexivity.
Qed.

Lemma dropTable_needs_table_witness :
  fst (dropTable example_world) = Ok tt
  /\ tables (server (snd (dropTable example_world)))
     = delete x_policy (tables (server example_world))
  /\ fst (dropTable (snd (dropTable example_world)))
     = Panic (PanicErr "table does not exist").
Proof.
  destruct (dropTable_needs_table example_world (mkDB 0 false)) as (_ & Hsome);
    [reflexivity | reflexivity |].
  apply Hsome. vm_compute. eauto.
Defined.

(** X16: [close] needs a handle and ends the use of it: on an adapter
    without handle it panics; on an open handle it returns, the state is
    Closed, one connection is released and no table changes, and from then
    on [AddPolicy] and [RemovePolicy] return the client's error and store
    or delete nothing, until a load or a save opens a new connection. *)
Theorem close_ends_handle (w : World) :
  (db (adapter w) = None -> close w = (Panic NilDereference, w))
  /\ (forall d, db (adapter w) = Some d -> db_closed d = false ->
      exists w' : World,
        close w = (Ok tt, w')
        /\ conn_state (adapter w') = Closed
        /\ released (server w') = S (released (server w))
        /\ tables (server w') = tables (server w)
        /\ (forall sec ptype rule,
              AddPolicy sec ptype rule w' = (Ok closed_error, w')
              /\ RemovePolicy sec ptype rule w' = (Ok closed_error, w'))
        /\ (forall model,
              conn_state (adapter (snd (LoadPolicy model w'))) = Open
              /\ conn_state (adapter (snd (SavePolicy model w'))) = Open)).
Proof.
  destruct w as [a s]. cbn [adapter server]. split.
  - intros Hdb. unfold close, pg_Close. run_monad. rewrite Hdb. reflexivity.
  - intros d Hdb Hopen. eexists. split.
    + unfold close, pg_Close. run_monad. rewrite Hdb, Hopen. run_monad. reflexivity.
    + cbn [adapter server tables released]. split; [reflexivity|].
      split; [reflexivity|]. split; [reflexivity|]. split.
      * intros sec ptype rule. split; reflexivity.
      * intros model. rewrite LoadPolicy_run, SavePolicy_run.
        destruct (tables _ !! "policy") as [rows|];
          [destruct (load_lines rows model)|]; split; reflexivity.
Qed.

Lemma close_ends_handle_witness :
  exists w' : World,
    close example_world = (Ok tt, w')
    /\ conn_state (adapter w') = Closed
    /\ AddPolicy "p" "p" ["bob"; "data2"; "write"] w' = (Ok closed_error, w').
Proof.
  destruct (close_ends_handle example_world) as (_ & Hclose).
  destruct (Hclose (mkDB 0 false)) as (w' & Hrun & Hst & _ & _ & Hadd & _);
    [reflexivity | reflexivity |].
  exists w'. split; [exact Hrun|]. split; [exact Hst|].
  apply (Hadd "p" "p" ["bob"; "data2"; "write"]).
Defined.

(** ** Loading rows back *)

Section Loading.

Lemma assoc_get_set_ne {V} (k k' : string) (v : V) (m : list (string * V)) :
  k <> k' -> assoc_get k' (assoc_set k v m) = assoc_get k' m.
Proof.
  intros Hne. induction m as [|[k0 v0] m IH]; cbn [assoc_get assoc_set]; [reflexivity|].
  destruct (String.eqb k k0) eqn:E; cbn [assoc_get].
  - apply String.eqb_eq in E. subst k0.
    assert (String.eqb k' k = false) as -> by (apply String.eqb_neq; congruence).
    reflexivity.
  - destruct (String.eqb k' k0); auto.
Qed.

Lemma loadPolicyLine_with_rule (ptype sec : string) (rule : list string) (model : Model) :
  (List.length rule <= 6)%nat ->
  Forall (fun f => f <> "") rule ->
  Forall (fun f => has_sep f = false) rule ->
  has_sep ptype = false ->
  first_byte ptype = Ok sec ->
  is_Some (assoc_get ptype (section_of model sec)) ->
  loadPolicyLine (savePolicyLine ptype rule) model = Ok (with_rule model sec ptype rule).
Proof.
  intros Hlen Hne Hsep Hp Hsec Hdecl.
  unfold loadPolicyLine, LoadPolicyLine.
  rewrite lineText_savePolicyLine by assumption.
  rewrite Split_join by assumption.
  rewrite (index_in_range (ptype :: rule) 0 "")
    by (unfold len; cbn [List.length]; lia).
  destruct ptype as [|c ptype]; [discriminate|]. rewrite str_app_cons.
  change (Z.to_nat 0) with 0%nat.
  cbn [String.eqb nth mbind result_bind drop].
  rewrite Hsec. cbn [mbind result_bind].
  unfold with_rule. destruct Hdecl as [ast Hast]. rewrite Hast.
  reflexivity.
Qed.

(** Where a type is looked up after a rule was filed. *)
Lemma lookup_with_rule (model : Model) (sec ptype : string) (rule : list string)
    (ast : Assertion) (sec' ptype' : string) :
  assoc_get ptype (section_of model sec) = Some ast ->
  assoc_get ptype' (section_of (with_rule model sec ptype rule) sec')
  = if String.eqb sec sec' && String.eqb ptype ptype'
    then Some (mkAssertion (Policy ast ++ [rule])%list)
    else assoc_get ptype' (section_of model sec').
Proof.
  intros Hast. unfold with_rule. rewrite Hast.
  assert (is_Some (assoc_get sec model)) as Hsec.
  { unfold section_of in Hast. destruct (assoc_get sec model); [eauto|discriminate]. }
  destruct (String.eqb_spec sec sec') as [<-|Hs]; cbn [andb].
  - unfold section_of at 1. rewrite (assoc_get_set_eq sec _ model Hsec).
    destruct (String.eqb_spec ptype ptype') as [<-|Hp].
    + apply assoc_get_set_eq. eauto.
    + apply assoc_get_set_ne. exact Hp.
  - unfold section_of at 1. rewrite assoc_get_set_ne by exact Hs. reflexivity.
Qed.

Lemma rules_of_with_rule_any (model : Model) (sec ptype : string) (rule : list string)
    (sec' ptype' : string) :
  is_Some (assoc_get ptype (section_of model sec)) ->
  rules_of (with_rule model sec ptype rule) sec' ptype'
  = (rules_of model sec' ptype'
     ++ if String.eqb sec sec' && String.eqb ptype ptype' then [rule] else [])%list.
Proof.
  intros [ast Hast]. unfold rules_of.
  rewrite (lookup_with_rule model sec ptype rule ast sec' ptype' Hast).
  destruct (String.eqb_spec sec sec') as [<-|Hs]; cbn [andb];
    [|rewrite app_nil_r; reflexivity].
  destruct (String.eqb_spec ptype ptype') as [<-|Hp];
    [|rewrite app_nil_r; reflexivity].
  rewrite Hast. reflexivity.
Qed.

Lemma loadable_with_rule (model : Model) (sec ptype : string) (rule : list string)
    (tr : string * list string) :
  is_Some (assoc_get ptype (section_of model sec)) ->
  loadable model tr -> loadable (with_rule model sec ptype rule) tr.
Proof.
  intros [ast Hast] (Hlen & Hne & Hsep & Hp & sec' & Hsec' & Hdecl).
  repeat (split; [assumption|]). exists sec'. split; [exact Hsec'|].
  rewrite (lookup_with_rule model sec ptype rule ast sec' (fst tr) Hast).
  destruct (String.eqb sec sec' && String.eqb ptype (fst tr)); [eauto|exact Hdecl].
Qed.

Lemma rules_for_cons (sec ptype ptype0 sec0 : string) (rule0 : list string)
    (rules : list (string * list string)) :
  first_byte ptype0 = Ok sec0 ->
  rules_for sec ptype ((ptype0, rule0) :: rules)
  = ((if String.eqb sec0 sec && String.eqb ptype0 ptype then [rule0] else [])
     ++ rules_for sec ptype rules)%list.
Proof.
  intros Hsec0. unfold rules_for. cbn [List.filter fst].
  destruct (String.eqb_spec ptype0 ptype) as [<-|Hp]; cbn [andb].
  - unfold in_section. rewrite Hsec0.
    destruct (String.eqb sec0 sec); reflexivity.
  - rewrite andb_false_r. reflexivity.
Qed.

Lemma load_lines_encoded_rules (rules : list (string * list string)) :
  forall model : Model,
    Forall (loadable model) rules ->
    exists model' : Model,
      load_lines (encoded rules) model = Ok model'
      /\ forall sec ptype,
           rules_of model' sec ptype
           = (rules_of model sec ptype ++ rules_for sec ptype rules)%list.
Proof.
  induction rules as [|[ptype0 rule0] rules IH]; intros model Hall.
  - exists model. split; [reflexivity|]. intros sec ptype.
    unfold rules_for. cbn. rewrite app_nil_r. reflexivity.
  - apply Forall_cons in Hall as [Hhead Hrest].
    pose proof Hhead as (Hlen & Hne & Hsep & Hp & sec0 & Hsec0 & Hdecl).
    cbn [fst snd] in *.
    destruct (IH (with_rule model sec0 ptype0 rule0)) as (model' & Hload & Hrules).
    { eapply Forall_impl; [exact Hrest|].
      intros tr. apply loadable_with_rule. exact Hdecl. }
    exists model'. split.
    + cbn [encoded map load_lines].
      rewrite (loadPolicyLine_with_rule ptype0 sec0 rule0 model) by assumption.
      exact Hload.
    + intros sec ptype. rewrite Hrules.
      rewrite (rules_of_with_rule_any model sec0 ptype0 rule0 sec ptype Hdecl).
      rewrite (rules_for_cons sec ptype ptype0 sec0 rule0 rules Hsec0).
      rewrite <- app_assoc. reflexivity.
Qed.

End Loading.

(** X17: the load loop reads encoded rules back in row order: for typed
    rules the model can take (at most six non-empty fields, no separator,
    type declared), loading the rows [savePolicyLine] makes of them never
    panics and appends to each type's collection exactly the rules of that
    type, in the order of the rows; collections of other types stay. *)
Theorem load_lines_encoded (rules : list (string * list string)) (model : Model) :
  Forall (loadable model) rules ->
  exists model' : Model,
    load_lines (map (fun '(ptype, rule) => savePolicyLine ptype rule) rules) model
    = Ok model'
    /\ forall sec ptype,
         rules_of model' sec ptype
         = (rules_of model sec ptype ++ rules_for sec ptype rules)%list.
Proof. intros Hall. apply (load_lines_encoded_rules rules model Hall). Qed.

Ltac prove_one_loadable :=
  unfold loadable; cbn [fst snd List.length];
  split; [lia|];
  split; [repeat constructor; discriminate|];
  split; [repeat constructor|];
  split; [reflexivity|];
  eexists; split; [reflexivity|]; cbn; eauto.

Ltac prove_loadable :=
  repeat first [apply List.Forall_nil | apply List.Forall_cons; [prove_one_loadable|]].

Lemma load_lines_encoded_witness :
  exists model' : Model,
    load_lines
      (map (fun '(ptype, rule) => savePolicyLine ptype rule)
         [("p", ["alice"; "data1"; "read"]); ("g", ["alice"; "admin"]);
          ("p", ["bob"; "data2"; "write"])]) fresh_model
    = Ok model'
    /\ rules_of model' "p" "p" = [["alice"; "data1"; "read"]; ["bob"; "data2"; "write"]]
    /\ rules_of model' "g" "g" = [["alice"; "admin"]].
Proof.
  destruct (load_lines_encoded
              [("p", ["alice"; "data1"; "read"]); ("g", ["alice"; "admin"]);
               ("p", ["bob"; "data2"; "write"])] fresh_model)
    as (model' & Hload & Hrules); [prove_loadable|].
  exists model'. split; [exact Hload|].
  split; rewrite Hrules; reflexivity.
Defined.

(** X18: [LoadPolicy] reads the table named policy and no other: without
    such a table it returns the query's error and the model is as it was;
    when the table holds the encodings of rules the model can take, it
    returns nil and the model has gained exactly these rules, each under its
    type and in row order. *)
Theorem LoadPolicy_from_policy_table
    (rules : list (string * list string)) (model : Model) (w : World) :
  Forall (loadable model) rules ->
  (tables (server w) !! "policy" = None ->
   fst (LoadPolicy model w) = Ok (err_new "relation does not exist", model))
  /\ (tables (server w) !! "policy" = Some (encoded rules) ->
      exists model' : Model,
        fst (LoadPolicy model w) = Ok (err_nil, model')
        /\ forall sec ptype,
             rules_of model' sec ptype
             = (rules_of model sec ptype ++ rules_for sec ptype rules)%list).
Proof.
  intros Hall. split.
  - intros Hnone. rewrite LoadPolicy_run, Hnone. reflexivity.
  - intros Hsome. destruct (load_lines_encoded_rules rules model Hall)
      as (model' & Hload & Hrules).
    exists model'. split; [|exact Hrules].
    rewrite LoadPolicy_run, Hsome, Hload. reflexivity.
Qed.

Lemma LoadPolicy_from_policy_table_witness :
  exists model' : Model,
    fst (LoadPolicy fresh_model
           (mkWorld (adapter new_world)
              (mkServer {[ "policy" := encoded [("p", ["alice"; "data1"; "read"])] ]} 0 0 [])))
    = Ok (err_nil, model')
    /\ rules_of model' "p" "p" = [["alice"; "data1"; "read"]].
Proof.
  destruct (LoadPolicy_from_policy_table [("p", ["alice"; "data1"; "read"])] fresh_model
              (mkWorld (adapter new_world)
                 (mkServer {[ "policy" := encoded [("p", ["alice"; "data1"; "read"])] ]}
                    0 0 [])))
    as (_ & Hsome); [prove_loadable|].
  destruct Hsome as (model' & Hrun & Hrules); [vm_compute; reflexivity|].
  exists model'. split; [exact Hrun|]. rewrite Hrules. reflexivity.
Defined.

(** ** What a save stores, read back *)

Section RoundTrip.







End RoundTrip.



(** ** Incremental and bulk storage agree *)

Section Agreement.




End Agreement.


